(** * pyturbo: the turbofan geometry system [TurbofanGeom]

    A shallow embedding of [pyturbo/systems/turbofan/turbofan_geom.py] and of
    the defaults that [pyturbo/systems/turbofan/turbofan.py] gives it.

    [TurbofanGeom.compute] is straight-line float arithmetic on the inwards of
    the system.  It is written once, over an interface [Numeric] of the
    operations it uses (Python float arithmetic, [np.sqrt], [np.tan],
    [np.radians], [np.pi], the builtin [max]), and read at two instances:

    - [Exact]: the real numbers, the exact arithmetic the float code
      approximates; the algebraic properties are proved here, each with the
      condition under which the square root, the quotient and the tangent
      are the mathematical ones;
    - [Binary64]: IEEE 754 binary64, the arithmetic NumPy runs, for the
      questions about NaN and about bit-identical results.

    What follows from the data flow of [compute] alone is proved once, for
    every instance. *)

From Stdlib Require Import Bool ZArith QArith Floats.
From Stdlib Require Uint63.
From Stdlib Require Import Reals Lra Psatz.

Set Implicit Arguments.

(** ** The numeric interface *)

Declare Scope num_scope.
Delimit Scope num_scope with num.

Class Numeric (F : Type) : Type := {
  (* a decimal literal of the source text *)
  lit : Q -> F;
  fadd : F -> F -> F;
  fsub : F -> F -> F;
  fmul : F -> F -> F;
  fdiv : F -> F -> F;
  (* unary minus *)
  fneg : F -> F;
  (* [x ** 2] *)
  fpow2 : F -> F;
  np_sqrt : F -> F;
  np_tan : F -> F;
  np_radians : F -> F;
  np_pi : F;
  (* the builtin [max] of two floats *)
  py_max : F -> F -> F;
  (* [pyturbo.utils.slope_to_drdz], which is not among the sources: an
     angle in degrees is turned into the slope stored in a C1 keypoint *)
  slope_to_drdz : F -> F
}.

Arguments lit {F _} q%_Q.

Infix "+" := fadd : num_scope.
Infix "-" := fsub : num_scope.
Infix "*" := fmul : num_scope.
Infix "/" := fdiv : num_scope.
Notation "- x" := (fneg x) : num_scope.

(** ** Names of the inwards

    cosapp keeps the inwards of a system in a port that maps a name to a
    value; [Inward] lists the names [TurbofanGeom.setup] declares. *)

Inductive Inward : Set :=
| fan_diameter
| inlet_length_ratio
| inlet_radius_ratio
| fanmodule_length_ratio
| ogv_exit_hqt
| core_inlet_radius_ratio
| core_exit_radius_ratio
| core_length_ratio
| shaft_radius_ratio
| tcf_exit_radius_ratio
| tcf_length_ratio
| turbine_radius_ratio
| turbine_length_ratio
| turbine_fp_exit_hqt
| trf_length_ratio
| core_cowl_slope
| primary_nozzle_length_ratio
| secondary_nozzle_length_ratio
| frd_mount_relative
| aft_mount_relative
| pri_nozzle_area_ratio
| sec_nozzle_area_ratio.

(** Two names are the same name. *)
Definition Inward_eqb (a b : Inward) : bool :=
  match a, b with
  | fan_diameter, fan_diameter => true
  | inlet_length_ratio, inlet_length_ratio => true
  | inlet_radius_ratio, inlet_radius_ratio => true
  | fanmodule_length_ratio, fanmodule_length_ratio => true
  | ogv_exit_hqt, ogv_exit_hqt => true
  | core_inlet_radius_ratio, core_inlet_radius_ratio => true
  | core_exit_radius_ratio, core_exit_radius_ratio => true
  | core_length_ratio, core_length_ratio => true
  | shaft_radius_ratio, shaft_radius_ratio => true
  | tcf_exit_radius_ratio, tcf_exit_radius_ratio => true
  | tcf_length_ratio, tcf_length_ratio => true
  | turbine_radius_ratio, turbine_radius_ratio => true
  | turbine_length_ratio, turbine_length_ratio => true
  | turbine_fp_exit_hqt, turbine_fp_exit_hqt => true
  | trf_length_ratio, trf_length_ratio => true
  | core_cowl_slope, core_cowl_slope => true
  | primary_nozzle_length_ratio, primary_nozzle_length_ratio => true
  | secondary_nozzle_length_ratio, secondary_nozzle_length_ratio => true
  | frd_mount_relative, frd_mount_relative => true
  | aft_mount_relative, aft_mount_relative => true
  | pri_nozzle_area_ratio, pri_nozzle_area_ratio => true
  | sec_nozzle_area_ratio, sec_nozzle_area_ratio => true
  | _, _ => false
  end.

Section Model.

Context {F : Type} {N : Numeric F}.

Local Open Scope num_scope.

(** ** Keypoints and ports *)

(** Modelled from the spec: [pyturbo.ports] is not among the sources.  A
    keypoint is the array [np.r_[r, z]]: a radius and an axial position. *)
Definition Keypoint : Type := (F * F)%type.

(** [np.r_[a, b]] *)
Definition r_ (a b : F) : Keypoint := (a, b).

Definition kp_r (p : Keypoint) : F := fst p.
Definition kp_z (p : Keypoint) : F := snd p.

(** array [+] array, array [*] array and float [*] array, element by
    element *)
Definition kp_add (p q : Keypoint) : Keypoint :=
  (kp_r p + kp_r q, kp_z p + kp_z q).
Definition kp_mul (p q : Keypoint) : Keypoint :=
  (kp_r p * kp_r q, kp_z p * kp_z q).
Definition kp_scale (k : F) (p : Keypoint) : Keypoint :=
  (k * kp_r p, k * kp_z p).

(** Modelled from the spec: [KeypointsPort], a named bundle of the four
    corner keypoints of a stage; [compute] reads a coordinate of a corner
    as [inlet_hub_r], [inlet_hub_z] and so on. *)
Record KeypointsPort : Type := {
  inlet_hub : Keypoint;
  inlet_tip : Keypoint;
  exit_hub : Keypoint;
  exit_tip : Keypoint
}.

Definition inlet_hub_r (p : KeypointsPort) : F := kp_r (inlet_hub p).
Definition inlet_hub_z (p : KeypointsPort) : F := kp_z (inlet_hub p).
Definition inlet_tip_r (p : KeypointsPort) : F := kp_r (inlet_tip p).
Definition inlet_tip_z (p : KeypointsPort) : F := kp_z (inlet_tip p).
Definition exit_hub_r (p : KeypointsPort) : F := kp_r (exit_hub p).
Definition exit_hub_z (p : KeypointsPort) : F := kp_z (exit_hub p).
Definition exit_tip_r (p : KeypointsPort) : F := kp_r (exit_tip p).
Definition exit_tip_z (p : KeypointsPort) : F := kp_z (exit_tip p).

(** Modelled from the spec: [C1Keypoint], a keypoint that also carries
    the local slope dr/dz. *)
Record C1Keypoint : Type := {
  rz : Keypoint;
  drdz : F
}.

(** ** The system *)

Definition Inwards : Type := Inward -> F.

Record Outwards : Type := {
  fan_inlet_tip_kp : Keypoint;
  ogv_exit_hub_kp : Keypoint;
  ogv_exit_tip_kp : Keypoint;
  turbine_exit_tip_kp : Keypoint;
  pri_nozzle_exit_kp : C1Keypoint;
  sec_nozzle_exit_kp : Keypoint;
  sec_nozzle_exit_hub_kp : C1Keypoint;
  frd_mount : Keypoint;
  aft_mount : Keypoint;
  fan_module_length : F;
  engine_length : F
}.

Record TurbofanGeom : Type := {
  inwards : Inwards;
  inlet_kp : KeypointsPort;
  fanmodule_kp : KeypointsPort;
  core_kp : KeypointsPort;
  shaft_kp : KeypointsPort;
  tcf_kp : KeypointsPort;
  turbine_kp : KeypointsPort;
  trf_kp : KeypointsPort;
  primary_nozzle_kp : KeypointsPort;
  secondary_nozzle_kp : KeypointsPort;
  outwards : Outwards
}.

(** [self.<name> = v] for an inward *)
Definition set_inward (n : Inward) (v : F) (i : Inwards) : Inwards :=
  fun m => if Inward_eqb m n then v else i m.

Definition set (n : Inward) (v : F) (self : TurbofanGeom) : TurbofanGeom :=
  {| inwards := set_inward n v (inwards self);
     inlet_kp := inlet_kp self;
     fanmodule_kp := fanmodule_kp self;
     core_kp := core_kp self;
     shaft_kp := shaft_kp self;
     tcf_kp := tcf_kp self;
     turbine_kp := turbine_kp self;
     trf_kp := trf_kp self;
     primary_nozzle_kp := primary_nozzle_kp self;
     secondary_nozzle_kp := secondary_nozzle_kp self;
     outwards := outwards self |}.

(** *** [TurbofanGeom.setup] *)

Definition setup_inwards : Inwards := fun n =>
  match n with
  | fan_diameter => lit 1.6
  | inlet_length_ratio => lit 0.4
  | inlet_radius_ratio => lit 0.9
  | fanmodule_length_ratio => lit 1.0
  | ogv_exit_hqt => lit 0.6
  | core_inlet_radius_ratio => lit 0.25
  | core_exit_radius_ratio => lit 0.3
  | core_length_ratio => lit 3.0
  | shaft_radius_ratio => lit 0.1
  | tcf_exit_radius_ratio => lit 1.2
  | tcf_length_ratio => lit 0.15
  | turbine_radius_ratio => lit 0.65
  | turbine_length_ratio => lit 1.0
  | turbine_fp_exit_hqt => lit 0.8
  | trf_length_ratio => lit 0.15
  | core_cowl_slope => lit (-20.0)
  | primary_nozzle_length_ratio => lit 0.5
  | secondary_nozzle_length_ratio => lit 0.2
  | frd_mount_relative => lit 0.75
  | aft_mount_relative => lit 0.75
  | pri_nozzle_area_ratio => lit 0.9
  | sec_nozzle_area_ratio => lit 0.9
  end.

(** [np.ones(2)] *)
Definition ones : Keypoint := r_ (lit 1.0) (lit 1.0).

(** The outwards as [setup] declares them; [c0] is [C1Keypoint()]. *)
Definition setup_outwards (c0 : C1Keypoint) : Outwards :=
  {| fan_inlet_tip_kp := ones;
     ogv_exit_hub_kp := ones;
     ogv_exit_tip_kp := ones;
     turbine_exit_tip_kp := ones;
     pri_nozzle_exit_kp := c0;
     sec_nozzle_exit_kp := ones;
     sec_nozzle_exit_hub_kp := c0;
     frd_mount := r_ (lit 0.9) (lit 0.5);
     aft_mount := r_ (lit 0.5) (lit 3.0);
     fan_module_length := lit 1.0;
     engine_length := lit 1.0 |}.

(** The system after [setup]: [k0] is a freshly built [KeypointsPort] and
    [c0] a freshly built [C1Keypoint], whose contents are set in
    [pyturbo.ports]. *)
Definition setup (k0 : KeypointsPort) (c0 : C1Keypoint) : TurbofanGeom :=
  {| inwards := setup_inwards;
     inlet_kp := k0;
     fanmodule_kp := k0;
     core_kp := k0;
     shaft_kp := k0;
     tcf_kp := k0;
     turbine_kp := k0;
     trf_kp := k0;
     primary_nozzle_kp := k0;
     secondary_nozzle_kp := k0;
     outwards := setup_outwards c0 |}.

(** What [Turbofan.setup] then writes into its child [geom] (the CFM56-7
    values): [fan_diameter] is pulled from the assembly. *)
Definition Turbofan_setup (geom : TurbofanGeom) : TurbofanGeom :=
  set sec_nozzle_area_ratio (lit 0.6)
    (set pri_nozzle_area_ratio (lit 0.9)
      (set tcf_length_ratio (lit 0.5)
        (set tcf_exit_radius_ratio (lit 1.4)
          (set core_inlet_radius_ratio (lit 0.35)
            (set fan_diameter (lit 1.549) geom))))).

(** *** [TurbofanGeom.compute]

    Every assignment [self.x = e] of the source is a [let]; a later read of
    [self.x] is a read of that binding.  The record at the end is [self]
    after the pass. *)
Definition compute (self : TurbofanGeom) : TurbofanGeom :=
  let inw := inwards self in
  (* set keypoints to internal components *)
  let fan_radius := inw fan_diameter / lit 2.0 in

  let fanmodule_length := fan_radius * inw fanmodule_length_ratio in
  let self_fan_module_length := fanmodule_length in

  let inlet_radius := fan_radius * inw inlet_radius_ratio in
  let inlet_length := fan_radius * inw inlet_length_ratio in

  let core_inlet_radius := fan_radius * inw core_inlet_radius_ratio in
  let core_exit_radius := fan_radius * inw core_exit_radius_ratio in
  let core_length := core_inlet_radius * inw core_length_ratio in

  let shaft_radius := fan_radius * inw shaft_radius_ratio in

  let turbine_radius := fan_radius * inw turbine_radius_ratio in
  let turbine_length := turbine_radius * inw turbine_length_ratio in

  let trf_length := turbine_radius * inw trf_length_ratio in

  let primary_nozzle_length :=
    turbine_radius * inw primary_nozzle_length_ratio in

  let self_engine_length :=
    fanmodule_length + core_length + turbine_length + trf_length in

  (* fanmodule *)
  let fanmodule_inlet_hub := r_ (lit 0.0) (lit 0.0) in
  let fanmodule_inlet_tip := r_ fan_radius (lit 0.0) in
  let fanmodule_exit_hub :=
    kp_add fanmodule_inlet_hub (r_ (lit 0.0) fanmodule_length) in
  let fanmodule_exit_tip :=
    kp_add fanmodule_inlet_tip (r_ (lit 0.0) fanmodule_length) in
  let self_fanmodule_kp :=
    {| inlet_hub := fanmodule_inlet_hub; inlet_tip := fanmodule_inlet_tip;
       exit_hub := fanmodule_exit_hub; exit_tip := fanmodule_exit_tip |} in

  let self_fan_inlet_tip_kp := inlet_tip self_fanmodule_kp in
  let self_ogv_exit_hub_kp :=
    kp_mul (exit_tip self_fanmodule_kp) (r_ (inw ogv_exit_hqt) (lit 1.0)) in
  let self_ogv_exit_tip_kp := exit_tip self_fanmodule_kp in

  (* inlet module *)
  let inlet_exit_hub := inlet_hub self_fanmodule_kp in
  let inlet_exit_tip := inlet_tip self_fanmodule_kp in

  let inlet_inlet_hub :=
    r_ (lit 0.0) (inlet_hub_z self_fanmodule_kp - inlet_length) in
  let inlet_inlet_tip :=
    r_ inlet_radius (inlet_hub_z self_fanmodule_kp - inlet_length) in
  let self_inlet_kp :=
    {| inlet_hub := inlet_inlet_hub; inlet_tip := inlet_inlet_tip;
       exit_hub := inlet_exit_hub; exit_tip := inlet_exit_tip |} in

  (* shaft inlet *)
  let shaft_inlet_hub := exit_hub self_fanmodule_kp in
  let shaft_inlet_tip :=
    kp_add (exit_hub self_fanmodule_kp) (r_ shaft_radius (lit 0.0)) in

  (* core *)
  let core_inlet_hub := shaft_inlet_tip in
  let core_inlet_tip := r_ core_inlet_radius (kp_z core_inlet_hub) in

  let core_exit_hub := kp_add core_inlet_hub (r_ (lit 0.0) core_length) in
  let core_exit_tip := r_ core_exit_radius (kp_z core_exit_hub) in
  let self_core_kp :=
    {| inlet_hub := core_inlet_hub; inlet_tip := core_inlet_tip;
       exit_hub := core_exit_hub; exit_tip := core_exit_tip |} in

  (* tcf *)
  let tcf_inlet_hub := exit_hub self_core_kp in
  let tcf_inlet_tip := exit_tip self_core_kp in

  let tcf_length := kp_r tcf_inlet_tip * inw tcf_length_ratio in

  let tcf_exit_hub := kp_add tcf_inlet_hub (r_ (lit 0.0) tcf_length) in
  let tcf_exit_tip :=
    kp_add
      (kp_mul (exit_tip self_core_kp)
              (r_ (inw tcf_exit_radius_ratio) (lit 1.0)))
      (r_ (lit 0.0) tcf_length) in
  let self_tcf_kp :=
    {| inlet_hub := tcf_inlet_hub; inlet_tip := tcf_inlet_tip;
       exit_hub := tcf_exit_hub; exit_tip := tcf_exit_tip |} in

  (* shaft exit *)
  let shaft_length := core_length + tcf_length in
  let shaft_exit_hub := kp_add shaft_inlet_hub (r_ (lit 0.0) shaft_length) in
  let shaft_exit_tip := kp_add shaft_inlet_tip (r_ (lit 0.0) shaft_length) in
  let self_shaft_kp :=
    {| inlet_hub := shaft_inlet_hub; inlet_tip := shaft_inlet_tip;
       exit_hub := shaft_exit_hub; exit_tip := shaft_exit_tip |} in

  (* turbine *)
  let turbine_inlet_hub := exit_hub self_shaft_kp in
  let turbine_inlet_tip := exit_tip self_tcf_kp in

  let trb_exit_z := kp_z turbine_inlet_hub + turbine_length in
  let turbine_exit_hub := r_ (kp_r turbine_inlet_hub) trb_exit_z in
  let turbine_exit_tip := r_ turbine_radius trb_exit_z in
  let self_turbine_kp :=
    {| inlet_hub := turbine_inlet_hub; inlet_tip := turbine_inlet_tip;
       exit_hub := turbine_exit_hub; exit_tip := turbine_exit_tip |} in

  (* trf *)
  let lpt_fp_exit_hub_r :=
    inw turbine_fp_exit_hqt * exit_tip_r self_turbine_kp in
  let trf_inlet_hub := r_ lpt_fp_exit_hub_r (exit_hub_z self_turbine_kp) in
  let trf_inlet_tip := exit_tip self_turbine_kp in

  let trf_exit_z := kp_z trf_inlet_hub + trf_length in
  let trf_exit_hub := r_ (kp_r trf_inlet_hub) trf_exit_z in
  let trf_exit_tip := r_ (kp_r trf_inlet_tip) trf_exit_z in
  let self_trf_kp :=
    {| inlet_hub := trf_inlet_hub; inlet_tip := trf_inlet_tip;
       exit_hub := trf_exit_hub; exit_tip := trf_exit_tip |} in

  (* primary nozzle *)
  let pn_inlet_hub := exit_hub self_trf_kp in
  let pn_inlet_tip := exit_tip self_trf_kp in

  let pn_exit_hub :=
    kp_add pn_inlet_hub (r_ (lit 0.0) primary_nozzle_length) in
  let inlet_area :=
    np_pi * (fpow2 (kp_r pn_inlet_tip) - fpow2 (kp_r pn_inlet_hub)) in
  let pn_exit_tip :=
    r_ (np_sqrt
          (inw pri_nozzle_area_ratio * inlet_area / np_pi
           + fpow2 (kp_r pn_inlet_hub)))
       (exit_tip_z self_trf_kp) in
  let self_primary_nozzle_kp :=
    {| inlet_hub := pn_inlet_hub; inlet_tip := pn_inlet_tip;
       exit_hub := pn_exit_hub; exit_tip := pn_exit_tip |} in

  let min_dz :=
    (exit_tip_r self_primary_nozzle_kp - exit_tip_r self_trf_kp)
    / np_tan (np_radians (inw core_cowl_slope)) in
  let dz := py_max min_dz primary_nozzle_length in
  let dr := dz * np_tan (np_radians (inw core_cowl_slope)) in

  let self_pri_nozzle_exit_kp :=
    {| rz := kp_add (exit_tip self_trf_kp) (r_ dr dz);
       drdz := slope_to_drdz (inw core_cowl_slope) |} in

  (* secondary nozzle *)
  let sn_inlet_hub := self_ogv_exit_hub_kp in
  let sn_inlet_tip := self_ogv_exit_tip_kp in

  let sec_noz_tip_z :=
    (exit_tip_z self_turbine_kp - exit_tip_z self_fanmodule_kp) * lit 0.85
    + exit_tip_z self_fanmodule_kp in
  let dz' := exit_tip_z self_trf_kp - sec_noz_tip_z in
  let dr' := - dz' * np_tan (np_radians (inw core_cowl_slope)) in
  let sec_noz_hub_r := exit_tip_r self_trf_kp + dr' in
  let sn_exit_hub := r_ sec_noz_hub_r sec_noz_tip_z in

  let inlet_area' :=
    np_pi * (fpow2 (kp_r sn_inlet_tip) - fpow2 (kp_r sn_inlet_hub)) in
  let sec_noz_tip_r :=
    np_sqrt (inw sec_nozzle_area_ratio * inlet_area' / np_pi
             + fpow2 sec_noz_hub_r) in
  let sn_exit_tip := r_ sec_noz_tip_r sec_noz_tip_z in
  let self_secondary_nozzle_kp :=
    {| inlet_hub := sn_inlet_hub; inlet_tip := sn_inlet_tip;
       exit_hub := sn_exit_hub; exit_tip := sn_exit_tip |} in

  let self_sec_nozzle_exit_hub_kp :=
    {| rz := exit_hub self_secondary_nozzle_kp;
       drdz := slope_to_drdz (inw core_cowl_slope) |} in

  (* nacelle *)
  let self_turbine_exit_tip_kp := exit_tip self_turbine_kp in
  let self_sec_nozzle_exit_kp := exit_tip self_secondary_nozzle_kp in

  (* mounts *)
  let r := inw frd_mount_relative in
  let self_frd_mount :=
    kp_add (kp_scale (lit 1 - r) (inlet_tip self_fanmodule_kp))
           (kp_scale r (exit_tip self_fanmodule_kp)) in
  let r' := inw aft_mount_relative in
  let self_aft_mount :=
    kp_add (kp_scale (lit 1 - r') (inlet_tip self_trf_kp))
           (kp_scale r' (exit_tip self_trf_kp)) in

  {| inwards := inw;
     inlet_kp := self_inlet_kp;
     fanmodule_kp := self_fanmodule_kp;
     core_kp := self_core_kp;
     shaft_kp := self_shaft_kp;
     tcf_kp := self_tcf_kp;
     turbine_kp := self_turbine_kp;
     trf_kp := self_trf_kp;
     primary_nozzle_kp := self_primary_nozzle_kp;
     secondary_nozzle_kp := self_secondary_nozzle_kp;
     outwards :=
       {| fan_inlet_tip_kp := self_fan_inlet_tip_kp;
          ogv_exit_hub_kp := self_ogv_exit_hub_kp;
          ogv_exit_tip_kp := self_ogv_exit_tip_kp;
          turbine_exit_tip_kp := self_turbine_exit_tip_kp;
          pri_nozzle_exit_kp := self_pri_nozzle_exit_kp;
          sec_nozzle_exit_kp := self_sec_nozzle_exit_kp;
          sec_nozzle_exit_hub_kp := self_sec_nozzle_exit_hub_kp;
          frd_mount := self_frd_mount;
          aft_mount := self_aft_mount;
          fan_module_length := self_fan_module_length;
          engine_length := self_engine_length |} |}.

(** *** Locals of [compute], by name

    The statements below speak of values [compute] holds in local
    variables; these definitions give them as the source computes them. *)

Definition fan_radius (self : TurbofanGeom) : F :=
  inwards self fan_diameter / lit 2.0.

Definition turbine_radius (self : TurbofanGeom) : F :=
  fan_radius self * inwards self turbine_radius_ratio.

Definition primary_nozzle_length (self : TurbofanGeom) : F :=
  turbine_radius self * inwards self primary_nozzle_length_ratio.

(** [np.tan(np.radians(self.core_cowl_slope))] *)
Definition cowl_tan (self : TurbofanGeom) : F :=
  np_tan (np_radians (inwards self core_cowl_slope)).

(** The arguments of the two [np.sqrt], from the ports of [g], the system
    after the pass. *)
Definition pri_radicand (g : TurbofanGeom) : F :=
  let pn := primary_nozzle_kp g in
  inwards g pri_nozzle_area_ratio
  * (np_pi * (fpow2 (inlet_tip_r pn) - fpow2 (inlet_hub_r pn))) / np_pi
  + fpow2 (inlet_hub_r pn).

Definition sec_radicand (g : TurbofanGeom) : F :=
  let sn := secondary_nozzle_kp g in
  inwards g sec_nozzle_area_ratio
  * (np_pi * (fpow2 (inlet_tip_r sn) - fpow2 (inlet_hub_r sn))) / np_pi
  + fpow2 (exit_hub_r sn).

(** [sec_noz_tip_z], from the ports of [g], the system after the pass *)
Definition sec_noz_tip_z (g : TurbofanGeom) : F :=
  (exit_tip_z (turbine_kp g) - exit_tip_z (fanmodule_kp g)) * lit 0.85
  + exit_tip_z (fanmodule_kp g).

End Model.

Arguments Keypoint F : clear implicits.
Arguments KeypointsPort F : clear implicits.
Arguments C1Keypoint F : clear implicits.
Arguments Inwards F : clear implicits.
Arguments Outwards F : clear implicits.
Arguments TurbofanGeom F : clear implicits.
Arguments compute {F N} self : simpl never.

(** ** What the sources leave open

    [pyturbo.utils.slope_to_drdz] is not among the sources, and the tangent
    and the power NumPy calls are the C library's, which IEEE 754 does not
    fix bit by bit: [x ** 2] on a NumPy float is [pow(x, 2.0)], which need
    not be the correctly rounded product [x * x].  All three are taken as
    parameters. *)

Class Utils (F : Type) : Type := { utils_slope_to_drdz : F -> F }.

Class Libm : Type := {
  libm_tan : float -> float;
  (* [pow(x, 2.0)] *)
  libm_pow2 : float -> float
}.

(** ** Exact arithmetic *)

#[global] Instance Exact {U : Utils R} : Numeric R := {|
  lit := Q2R;
  fadd := Rplus;
  fsub := Rminus;
  fmul := Rmult;
  fdiv := Rdiv;
  fneg := Ropp;
  fpow2 := fun x => (x ^ 2)%R;
  np_sqrt := sqrt;
  np_tan := tan;
  np_radians := fun a => (a * (PI / 180))%R;
  np_pi := PI;
  (* [max(a, b)] is [b] if [b > a] and [a] otherwise, the value of [Rmax] *)
  py_max := Rmax;
  slope_to_drdz := utils_slope_to_drdz
|}.

(** ** IEEE 754 binary64 *)

Definition float_of_Z (z : Z) : float :=
  match z with
  | Z0 => 0%float
  | Zpos _ => PrimFloat.of_uint63 (Uint63.of_Z z)
  | Zneg p => (- PrimFloat.of_uint63 (Uint63.of_Z (Zpos p)))%float
  end.

(** A decimal literal [n / 10^k] with [n] and [10^k] below [2^53]: both are
    floats, and their correctly rounded quotient is the float nearest to the
    literal, which is how Python reads it. *)
Definition float_lit (q : Q) : float :=
  (float_of_Z (Qnum q) / float_of_Z (Zpos (Qden q)))%float.

(** [max(a, b)] keeps [a] unless [b > a]; a comparison with NaN is false. *)
Definition float_max (a b : float) : float :=
  if PrimFloat.ltb a b then b else a.

(** [np.pi] *)
Definition float_pi : float := 0x1.921fb54442d18p+1%float.

#[global] Instance Binary64 {L : Libm} {U : Utils float} : Numeric float := {|
  lit := float_lit;
  fadd := PrimFloat.add;
  fsub := PrimFloat.sub;
  fmul := PrimFloat.mul;
  fdiv := PrimFloat.div;
  fneg := PrimFloat.opp;
  fpow2 := libm_pow2;
  np_sqrt := PrimFloat.sqrt;
  np_tan := libm_tan;
  (* NumPy: [x * (NPY_PI / 180.0)] *)
  np_radians := fun a => (a * (float_pi / 180))%float;
  np_pi := float_pi;
  py_max := float_max;
  slope_to_drdz := utils_slope_to_drdz
|}.

(** ** Reference values for the examples

    The statements below hold for every [Utils] and every [Libm]; the closed
    examples need one of each. *)

(** Modelled from the spec: [slope_to_drdz] is missing; a C1 keypoint
    carries the local slope dr/dz, the tangent of the slope angle. *)
Definition ref_utils_R : Utils R :=
  {| utils_slope_to_drdz := fun a => tan (a * (PI / 180)) |}.

(** Stand-ins for the C library: for the tangent the quotient of the Taylor
    polynomials of sine and cosine, for the square the rounded product. *)
Definition tan_series (x : float) : float :=
  (let x2 := x * x in
   let s := x * (1 - x2 / 6 * (1 - x2 / 20 * (1 - x2 / 42
              * (1 - x2 / 72 * (1 - x2 / 110))))) in
   let c := 1 - x2 / 2 * (1 - x2 / 12 * (1 - x2 / 30
              * (1 - x2 / 56 * (1 - x2 / 90)))) in
   s / c)%float.

Definition ref_libm : Libm :=
  {| libm_tan := tan_series; libm_pow2 := fun x => (x * x)%float |}.

Definition ref_utils_float : Utils float :=
  {| utils_slope_to_drdz := fun a => tan_series (a * (float_pi / 180))%float |}.

Section Examples.

Context {F : Type} {N : Numeric F}.

(** The contents of a fresh port are set in [pyturbo.ports]; [compute]
    overwrites every one of them, and the examples start from ones. *)
Definition port_of_ones : KeypointsPort F :=
  {| inlet_hub := ones; inlet_tip := ones;
     exit_hub := ones; exit_tip := ones |}.

Definition c1_of_ones : C1Keypoint F := {| rz := ones; drdz := lit 1.0 |}.

(** [TurbofanGeom("geom")] on its own *)
Definition geom0 : TurbofanGeom F := setup port_of_ones c1_of_ones.

(** [Turbofan("tf").geom] *)
Definition tf_geom : TurbofanGeom F := Turbofan_setup geom0.

(** Hub-to-tip ratios of 2 at the turbine exit and at the OGV exit, with
    area ratios of 2: the inlet hub of each nozzle lies outside its tip. *)
Definition hub_above_tip : TurbofanGeom F :=
  set ogv_exit_hqt (lit 2.0)
    (set sec_nozzle_area_ratio (lit 2.0)
      (set turbine_fp_exit_hqt (lit 2.0)
        (set pri_nozzle_area_ratio (lit 2.0) geom0))).

(** A secondary nozzle asked to be two fan radii long. *)
Definition long_secondary : TurbofanGeom F :=
  set secondary_nozzle_length_ratio (lit 2.0) geom0.

(** A primary nozzle that keeps its area. *)
Definition unit_area : TurbofanGeom F :=
  set pri_nozzle_area_ratio (lit 1.0) geom0.

(** A primary nozzle of no length that doubles its area. *)
Definition double_area_no_length : TurbofanGeom F :=
  set primary_nozzle_length_ratio (lit 0.0)
    (set pri_nozzle_area_ratio (lit 2.0) geom0).

End Examples.

(** ** Properties stated on the outputs *)

Section Properties.

Context {F : Type}.

(** Stage [B] starts where stage [A] ends. *)
Definition contiguous (A B : KeypointsPort F) : Prop :=
  inlet_hub B = exit_hub A /\ inlet_tip B = exit_tip A.

(** The six pairs of stages of the flow path. *)
Definition all_contiguous (g : TurbofanGeom F) : Prop :=
  contiguous (inlet_kp g) (fanmodule_kp g) /\
  contiguous (fanmodule_kp g) (shaft_kp g) /\
  contiguous (shaft_kp g) (core_kp g) /\
  contiguous (core_kp g) (tcf_kp g) /\
  contiguous (turbine_kp g) (trf_kp g) /\
  contiguous (trf_kp g) (primary_nozzle_kp g).

(** Two systems hold the same outputs. *)
Definition same_outputs (g h : TurbofanGeom F) : Prop :=
  inlet_kp g = inlet_kp h /\ fanmodule_kp g = fanmodule_kp h /\
  core_kp g = core_kp h /\ shaft_kp g = shaft_kp h /\
  tcf_kp g = tcf_kp h /\ turbine_kp g = turbine_kp h /\
  trf_kp g = trf_kp h /\ primary_nozzle_kp g = primary_nozzle_kp h /\
  secondary_nozzle_kp g = secondary_nozzle_kp h /\
  outwards g = outwards h.

End Properties.

(** The area of the exit annulus of a nozzle is [ratio] times the area of
    its inlet annulus. *)
Definition area_ratio_holds (ratio : R) (kp : KeypointsPort R) : Prop :=
  (PI * (exit_tip_r kp ^ 2 - exit_hub_r kp ^ 2)
   = ratio * (PI * (inlet_tip_r kp ^ 2 - inlet_hub_r kp ^ 2)))%R.

(** The number under the square root of the exit tip radius, as the spec
    writes it: [area_ratio * inlet_area / pi + exit_hub_r ** 2]. *)
Definition radicand (ratio : R) (kp : KeypointsPort R) : R :=
  (ratio * (PI * (inlet_tip_r kp ^ 2 - inlet_hub_r kp ^ 2)) / PI
   + exit_hub_r kp ^ 2)%R.

(** Linear interpolation between two keypoints, and their midpoint. *)
Definition lerp (r : R) (a b : Keypoint R) : Keypoint R :=
  ((1 - r) * kp_r a + r * kp_r b, (1 - r) * kp_z a + r * kp_z b)%R.

Definition midpoint (a b : Keypoint R) : Keypoint R :=
  ((kp_r a + kp_r b) / 2, (kp_z a + kp_z b) / 2)%R.

(** An axial offset is the larger of some required offset and the nominal
    length. *)
Definition offset_is_max (offset nominal : R) : Prop :=
  exists required : R, offset = Rmax required nominal.

Section SlopeProperty.

Context {U : Utils R}.

Local Open Scope R_scope.


End SlopeProperty.

(** ** More inwards for the examples *)

Section MoreExamples.

Context {F : Type} {N : Numeric F}.

(** A core cowl of slope 0: with the default, converging primary nozzle,
    with one that doubles its area, and on an engine of diameter 0. *)
Definition flat_cowl : TurbofanGeom F := set core_cowl_slope (lit 0.0) geom0.

Definition flat_cowl_diverging : TurbofanGeom F :=
  set pri_nozzle_area_ratio (lit 2.0) flat_cowl.

Definition flat_cowl_no_engine : TurbofanGeom F :=
  set fan_diameter (lit 0.0) flat_cowl.

(** A smaller fan, every other inward at its default. *)
Definition small_fan : TurbofanGeom F := set fan_diameter (lit 1.2) geom0.

End MoreExamples.

(** An axial offset is the larger of some required offset and the nominal
    length, in binary64 and with the builtin [max]. *)
Definition offset_is_float_max (offset nominal : float) : Prop :=
  exists required : float, offset = float_max required nominal.

(** ** More properties stated on the outputs *)

Section MoreProperties.

Context {F : Type}.

(** The seven stages upstream of the nozzles are the same in two systems. *)
Definition same_upstream_ports (g h : TurbofanGeom F) : Prop :=
  inlet_kp g = inlet_kp h /\ fanmodule_kp g = fanmodule_kp h /\
  core_kp g = core_kp h /\ shaft_kp g = shaft_kp h /\
  tcf_kp g = tcf_kp h /\ turbine_kp g = turbine_kp h /\
  trf_kp g = trf_kp h.

End MoreProperties.

(** The inlet keypoints of a stage lie in one plane z = const, and so do its
    exit keypoints. *)
Definition planar (p : KeypointsPort R) : Prop :=
  inlet_hub_z p = inlet_tip_z p /\ exit_hub_z p = exit_tip_z p.

(** The exit of a stage is not upstream of its inlet. *)
Definition forward (p : KeypointsPort R) : Prop :=
  (inlet_hub_z p <= exit_hub_z p)%R.

(** The fan diameter and the ratios that lengths are made of are not
    negative. *)
Definition nonneg_lengths (self : TurbofanGeom R) : Prop :=
  let inw := inwards self in
  (0 <= inw fan_diameter /\ 0 <= inw inlet_length_ratio /\
   0 <= inw fanmodule_length_ratio /\ 0 <= inw core_inlet_radius_ratio /\
   0 <= inw core_length_ratio /\ 0 <= inw core_exit_radius_ratio /\
   0 <= inw tcf_length_ratio /\ 0 <= inw turbine_radius_ratio /\
   0 <= inw turbine_length_ratio /\ 0 <= inw trf_length_ratio /\
   0 <= inw primary_nozzle_length_ratio)%R.

(** The exit tip of a nozzle is at a radius that is not negative and not
    inside the exit hub. *)
Definition proper_exit (kp : KeypointsPort R) : Prop :=
  (0 <= exit_tip_r kp /\ exit_hub_r kp ^ 2 <= exit_tip_r kp ^ 2)%R.

(** A keypoint, a port and a C1 keypoint enlarged by the factor [k] about
    the origin; a slope is left as it is. *)
Definition scale_kp (k : R) (p : Keypoint R) : Keypoint R :=
  (k * kp_r p, k * kp_z p)%R.

Definition scale_port (k : R) (p : KeypointsPort R) : KeypointsPort R :=
  {| inlet_hub := scale_kp k (inlet_hub p);
     inlet_tip := scale_kp k (inlet_tip p);
     exit_hub := scale_kp k (exit_hub p);
     exit_tip := scale_kp k (exit_tip p) |}.

Definition scale_c1 (k : R) (c : C1Keypoint R) : C1Keypoint R :=
  {| rz := scale_kp k (rz c); drdz := drdz c |}.

(** Every output of [h] is the output of [g] enlarged by [k]. *)
Definition scaled (k : R) (g h : TurbofanGeom R) : Prop :=
  (inlet_kp h = scale_port k (inlet_kp g) /\
   fanmodule_kp h = scale_port k (fanmodule_kp g) /\
   core_kp h = scale_port k (core_kp g) /\
   shaft_kp h = scale_port k (shaft_kp g) /\
   tcf_kp h = scale_port k (tcf_kp g) /\
   turbine_kp h = scale_port k (turbine_kp g) /\
   trf_kp h = scale_port k (trf_kp g) /\
   primary_nozzle_kp h = scale_port k (primary_nozzle_kp g) /\
   secondary_nozzle_kp h = scale_port k (secondary_nozzle_kp g)) /\
  (fan_inlet_tip_kp (outwards h) = scale_kp k (fan_inlet_tip_kp (outwards g)) /\
   ogv_exit_hub_kp (outwards h) = scale_kp k (ogv_exit_hub_kp (outwards g)) /\
   ogv_exit_tip_kp (outwards h) = scale_kp k (ogv_exit_tip_kp (outwards g)) /\
   turbine_exit_tip_kp (outwards h)
   = scale_kp k (turbine_exit_tip_kp (outwards g)) /\
   sec_nozzle_exit_kp (outwards h)
   = scale_kp k (sec_nozzle_exit_kp (outwards g)) /\
   frd_mount (outwards h) = scale_kp k (frd_mount (outwards g)) /\
   aft_mount (outwards h) = scale_kp k (aft_mount (outwards g))) /\
  (pri_nozzle_exit_kp (outwards h)
   = scale_c1 k (pri_nozzle_exit_kp (outwards g)) /\
   sec_nozzle_exit_hub_kp (outwards h)
   = scale_c1 k (sec_nozzle_exit_hub_kp (outwards g))) /\
  (fan_module_length (outwards h) = k * fan_module_length (outwards g) /\
   engine_length (outwards h) = k * engine_length (outwards g))%R.

(** ** The turbofan assembly

    [Turbofan.setup] and [TurbofanWithAtm.setup] only declare: children with
    the names pulled up from them, connections, unknowns, and one design
    method.  What the framework does with a declaration is not among the
    sources; the declarations are kept as data, in the order of the source,
    and the statements below are about the names they use. *)

From Stdlib Require String List.

Section AssemblyModel.

Import String List ListNotations.

Local Open Scope string_scope.
Local Open Scope list_scope.

(** A dotted path, split at the dots; [self], the assembly, is the empty
    path. *)
Definition Path : Type := list string.

Inductive Mapping : Type :=
| all_fields
| field_names (l : list string)
| field_renaming (l : list (string * string)).

Record Connection : Type := {
  object1 : Path;
  object2 : Path;
  mapping : Mapping
}.

Record Child : Type := {
  child_name : string;
  child_class : string;
  pulling : list (string * string)
}.

Record Unknown : Type := {
  unknown_path : Path;
  lower_bound : option Q;
  upper_bound : option Q;
  max_rel_step : option Q
}.

Record DesignMethod : Type := {
  design_unknowns : list Unknown;
  design_targets : list Path
}.

Record Assembly : Type := {
  children : list Child;
  connections : list Connection;
  unknowns : list Unknown;
  design_methods : list (string * DesignMethod)
}.

Definition pull (l : list string) : list (string * string) :=
  map (fun n => (n, n)) l.

Definition free (p : Path) : Unknown :=
  {| unknown_path := p; lower_bound := None; upper_bound := None;
     max_rel_step := None |}.

Definition Turbofan_children : list Child :=
  [ {| child_name := "geom"; child_class := "TurbofanGeom";
       pulling := pull ["fan_diameter"; "frd_mount"; "aft_mount"] |};
    {| child_name := "inlet"; child_class := "Inlet";
       pulling := pull ["fl_in"; "pamb"] |};
    {| child_name := "fan_module"; child_class := "FanModule";
       pulling := [("bpr", "bpr"); ("N", "N1")] |};
    {| child_name := "fan_duct"; child_class := "FanDuct"; pulling := [] |};
    {| child_name := "core"; child_class := "GasGenerator";
       pulling := [("fuel_W", "fuel_W"); ("N", "N2")] |};
    {| child_name := "tcf"; child_class := "Channel"; pulling := [] |};
    {| child_name := "turbine"; child_class := "LPT"; pulling := [] |};
    {| child_name := "trf"; child_class := "Channel"; pulling := [] |};
    {| child_name := "primary_nozzle"; child_class := "Nozzle";
       pulling := pull ["pamb"] |};
    {| child_name := "secondary_nozzle"; child_class := "Nozzle";
       pulling := pull ["pamb"] |};
    {| child_name := "nacelle"; child_class := "Nacelle"; pulling := [] |};
    {| child_name := "plug"; child_class := "Plug"; pulling := [] |};
    {| child_name := "core_cowl"; child_class := "CoreCowl"; pulling := [] |};
    {| child_name := "aero"; child_class := "TurbofanAero";
       pulling := pull ["fuel_W"; "opr"; "thrust"; "pr_split"; "sfc";
                        "pr_nozzle"] |};
    {| child_name := "weight"; child_class := "TurbofanWeight";
       pulling := pull ["ipps_weight"] |} ].

Definition connect (a b : Path) (m : Mapping) : Connection :=
  {| object1 := a; object2 := b; mapping := m |}.

Definition Turbofan_connections : list Connection :=
  [ (* shaft connectors *)
    connect ["turbine"; "sh_out"] ["fan_module"; "sh_in"] all_fields;
    (* fluid connectors *)
    connect ["inlet"; "fl_out"] ["fan_module"; "fl_in"] all_fields;
    connect ["fan_module"; "fl_bypass"] ["fan_duct"; "fl_in"] all_fields;
    connect ["fan_duct"; "fl_out"] ["secondary_nozzle"; "fl_in"] all_fields;
    connect ["fan_module"; "fl_core"] ["core"; "fl_in"] all_fields;
    connect ["core"; "fl_out"] ["tcf"; "fl_in"] all_fields;
    connect ["tcf"; "fl_out"] ["turbine"; "fl_in"] all_fields;
    connect ["turbine"; "fl_out"] ["trf"; "fl_in"] all_fields;
    connect ["trf"; "fl_out"] ["primary_nozzle"; "fl_in"] all_fields;
    (* geometry connectors *)
    connect ["geom"] ["inlet"] (field_names ["fan_inlet_tip_kp"]);
    connect ["geom"] ["fan_module"]
      (field_renaming [("fan_diameter", "fan_diameter");
                       ("fan_module_length", "length")]);
    connect ["geom"; "core_kp"] ["core"; "kp"] all_fields;
    connect ["geom"; "tcf_kp"] ["tcf"; "kp"] all_fields;
    connect ["geom"; "turbine_kp"] ["turbine"; "kp"] all_fields;
    connect ["geom"; "trf_kp"] ["trf"; "kp"] all_fields;
    connect ["geom"; "primary_nozzle_kp"] ["primary_nozzle"; "kp"] all_fields;
    connect ["geom"; "secondary_nozzle_kp"] ["secondary_nozzle"; "kp"]
      all_fields;
    connect ["geom"] ["nacelle"]
      (field_names ["ogv_exit_tip_kp"; "sec_nozzle_exit_kp"]);
    connect ["inlet"] ["nacelle"] (field_names ["hilite_kp"]);
    connect [] ["nacelle"] (field_names ["fan_diameter"]);
    connect ["trf"; "kp"] ["plug"; "inwards"]
      (field_renaming [("exit_hub", "trf_exit_hub_kp")]);
    connect ["geom"; "secondary_nozzle_kp"] ["fan_duct"; "kp"] all_fields;
    connect ["geom"] ["fan_duct"]
      (field_renaming [("fan_duct_core_cowl_slope", "core_cowl_slope")]);
    connect ["geom"] ["core_cowl"]
      (field_renaming [("sec_nozzle_exit_hub_kp", "inlet_kp");
                       ("pri_nozzle_exit_kp", "exit_kp")]);
    (* aerodynamic performance connectors *)
    connect ["inlet"; "outwards"] ["aero"; "inwards"]
      (field_renaming [("drag", "inlet_drag")]);
    connect ["fan_module"; "outwards"] ["aero"; "inwards"]
      (field_names ["fan_pr"; "booster_pr"]);
    connect ["core"; "outwards"] ["aero"; "inwards"]
      (field_renaming [("opr", "core_opr")]);
    connect ["primary_nozzle"; "outwards"] ["aero"; "inwards"]
      (field_renaming [("thrust", "primary_nozzle_thrust")]);
    connect ["secondary_nozzle"; "outwards"] ["aero"; "inwards"]
      (field_renaming [("thrust", "secondary_nozzle_thrust")]);
    connect ["fan_duct"; "fl_out"] ["aero"; "fl_secondary_nozzle"] all_fields;
    connect ["trf"; "fl_out"] ["aero"; "fl_primary_nozzle"] all_fields;
    (* weight connectors *)
    connect [] ["weight"] (field_names ["fan_diameter"]);
    connect ["geom"] ["weight"] (field_renaming [("engine_length", "length")])
  ].

Definition bounded (p : Path) (lo hi : Q) : Unknown :=
  {| unknown_path := p; lower_bound := Some lo; upper_bound := Some hi;
     max_rel_step := None |}.

Definition stepped (p : Path) (step : Q) : Unknown :=
  {| unknown_path := p; lower_bound := None; upper_bound := None;
     max_rel_step := Some step |}.

Definition scaling : DesignMethod :=
  {| design_unknowns :=
       [ free ["fan_diameter"];
         (* fan *)
         stepped ["fan_module"; "fan"; "aero"; "xnd"] 0.5;
         bounded ["fan_module"; "fan"; "aero"; "phiP"] 0.1 1.5;
         (* booster *)
         free ["fan_module"; "geom"; "booster_radius_ratio"];
         bounded ["fan_module"; "booster"; "geom"; "blade_hub_to_tip_ratio"]
                 0.00001 1.0;
         free ["fan_module"; "booster"; "aero"; "phiP"];
         stepped ["fan_module"; "booster"; "aero"; "xnd"] 0.5;
         (* lpt *)
         free ["geom"; "turbine_radius_ratio"];
         bounded ["turbine"; "geom"; "blade_height_ratio"] 0.0 1.0;
         free ["turbine"; "aero"; "Ncdes"];
         (* hpc *)
         stepped ["geom"; "core_inlet_radius_ratio"] 0.8;
         stepped ["core"; "compressor"; "aero"; "xnd"] 0.5;
         free ["core"; "compressor"; "aero"; "phiP"];
         (* hpt *)
         stepped ["geom"; "core_exit_radius_ratio"] 0.8;
         bounded ["core"; "turbine"; "geom"; "blade_height_ratio"] 0.0 1.0;
         free ["core"; "turbine"; "aero"; "Ncdes"];
         (* nozzle *)
         {| unknown_path := ["geom"; "pri_nozzle_area_ratio"];
            lower_bound := Some 0.05; upper_bound := None;
            max_rel_step := None |};
         {| unknown_path := ["geom"; "sec_nozzle_area_ratio"];
            lower_bound := None; upper_bound := Some 1.0;
            max_rel_step := None |} ];
     design_targets :=
       [ ["inlet"; "aero"; "mach"];
         ["fan_module"; "fan"; "aero"; "pcnr"];
         ["fan_module"; "fan"; "aero"; "utip"];
         ["bpr"];
         ["fan_module"; "booster"; "aero"; "phi"];
         ["fan_module"; "booster"; "aero"; "psi"];
         ["fan_module"; "booster"; "aero"; "spec_flow"];
         ["fan_module"; "booster"; "aero"; "pcnr"];
         ["turbine"; "aero"; "psi"];
         ["turbine"; "aero"; "Ncqdes"];
         ["core"; "compressor"; "aero"; "pcnr"];
         ["core"; "compressor"; "aero"; "phi"];
         ["core"; "compressor"; "aero"; "utip"];
         ["core"; "compressor"; "aero"; "pr"];
         ["core"; "combustor"; "aero"; "Tcomb"];
         ["core"; "turbine"; "aero"; "psi"];
         ["core"; "turbine"; "aero"; "Ncqdes"];
         ["pr_nozzle"] ] |}.

Definition Turbofan_assembly : Assembly :=
  {| children := Turbofan_children;
     connections := Turbofan_connections;
     unknowns := [ free ["fl_in"; "W"] ];
     design_methods := [ ("scaling", scaling) ] |}.

Definition TurbofanWithAtm_assembly : Assembly :=
  {| children :=
       [ {| child_name := "atm"; child_class := "Atmosphere"; pulling := [] |};
         {| child_name := "tf"; child_class := "Turbofan"; pulling := [] |} ];
     connections :=
       [ connect ["atm"; "outwards"] ["tf"; "fl_in"] (field_names ["Pt"; "Tt"]);
         connect ["atm"; "outwards"] ["tf"; "inwards"] (field_names ["pamb"]) ];
     unknowns := [];
     design_methods := [] |}.

(** *** The names [TurbofanGeom.setup] declares *)

Definition Inward_name (n : Inward) : string :=
  match n with
  | fan_diameter => "fan_diameter"
  | inlet_length_ratio => "inlet_length_ratio"
  | inlet_radius_ratio => "inlet_radius_ratio"
  | fanmodule_length_ratio => "fanmodule_length_ratio"
  | ogv_exit_hqt => "ogv_exit_hqt"
  | core_inlet_radius_ratio => "core_inlet_radius_ratio"
  | core_exit_radius_ratio => "core_exit_radius_ratio"
  | core_length_ratio => "core_length_ratio"
  | shaft_radius_ratio => "shaft_radius_ratio"
  | tcf_exit_radius_ratio => "tcf_exit_radius_ratio"
  | tcf_length_ratio => "tcf_length_ratio"
  | turbine_radius_ratio => "turbine_radius_ratio"
  | turbine_length_ratio => "turbine_length_ratio"
  | turbine_fp_exit_hqt => "turbine_fp_exit_hqt"
  | trf_length_ratio => "trf_length_ratio"
  | core_cowl_slope => "core_cowl_slope"
  | primary_nozzle_length_ratio => "primary_nozzle_length_ratio"
  | secondary_nozzle_length_ratio => "secondary_nozzle_length_ratio"
  | frd_mount_relative => "frd_mount_relative"
  | aft_mount_relative => "aft_mount_relative"
  | pri_nozzle_area_ratio => "pri_nozzle_area_ratio"
  | sec_nozzle_area_ratio => "sec_nozzle_area_ratio"
  end.

Definition all_inwards : list Inward :=
  [ fan_diameter;
    inlet_length_ratio;
    inlet_radius_ratio;
    fanmodule_length_ratio;
    ogv_exit_hqt;
    core_inlet_radius_ratio;
    core_exit_radius_ratio;
    core_length_ratio;
    shaft_radius_ratio;
    tcf_exit_radius_ratio;
    tcf_length_ratio;
    turbine_radius_ratio;
    turbine_length_ratio;
    turbine_fp_exit_hqt;
    trf_length_ratio;
    core_cowl_slope;
    primary_nozzle_length_ratio;
    secondary_nozzle_length_ratio;
    frd_mount_relative;
    aft_mount_relative;
    pri_nozzle_area_ratio;
    sec_nozzle_area_ratio ].

Definition geom_inwards : list string := map Inward_name all_inwards.

Definition geom_ports : list string :=
  [ "inlet_kp"; "fanmodule_kp"; "core_kp"; "shaft_kp"; "tcf_kp"; "turbine_kp";
    "trf_kp"; "primary_nozzle_kp"; "secondary_nozzle_kp" ].

Definition geom_outwards : list string :=
  [ "fan_inlet_tip_kp"; "ogv_exit_hub_kp"; "ogv_exit_tip_kp";
    "turbine_exit_tip_kp"; "pri_nozzle_exit_kp"; "sec_nozzle_exit_kp";
    "sec_nozzle_exit_hub_kp"; "frd_mount"; "aft_mount"; "fan_module_length";
    "engine_length" ].

Definition geom_declared : list string :=
  geom_inwards ++ geom_ports ++ geom_outwards.

(** *** Reading an assembly *)

Definition mem (s : string) (l : list string) : bool :=
  existsb (String.eqb s) l.

Definition path_eqb (p q : Path) : bool :=
  if list_eq_dec string_dec p q then true else false.

(** The fields of its second argument a connection names: the whole port,
    the listed names, or the values of the dict. *)
Definition written (c : Connection) : list (Path * option string) :=
  match mapping c with
  | all_fields => [ (object2 c, None) ]
  | field_names l => map (fun n => (object2 c, Some n)) l
  | field_renaming l => map (fun kv => (object2 c, Some (snd kv))) l
  end.

(** The names of its first argument a connection names. *)
Definition read_names (c : Connection) : list string :=
  match mapping c with
  | all_fields => []
  | field_names l => l
  | field_renaming l => map fst l
  end.

(** Two written fields overlap: the same object, and the same field or a
    whole port. *)
Definition overlap (a b : Path * option string) : bool :=
  path_eqb (fst a) (fst b)
  && match snd a, snd b with
     | Some x, Some y => String.eqb x y
     | _, _ => true
     end.

Fixpoint all_pairs {A : Type} (f : A -> A -> bool) (l : list A) : bool :=
  match l with
  | [] => true
  | a :: l' => forallb (f a) l' && all_pairs f l'
  end.

(** What an assembly names of its child [c]: what it pulls from it, what
    its connections read from it, and the unknowns it declares on it. *)
Definition names_used_of (a : Assembly) (c : string) : list string :=
  flat_map (fun ch => if String.eqb (child_name ch) c
                      then map fst (pulling ch) else []) (children a)
  ++ flat_map (fun k => match object1 k with
                        | [h] => if String.eqb h c then read_names k else []
                        | [h; port] => if String.eqb h c then [port] else []
                        | _ => []
                        end) (connections a)
  ++ flat_map (fun dm =>
       flat_map (fun u => match unknown_path u with
                          | [h; n] => if String.eqb h c then [n] else []
                          | _ => []
                          end) (design_unknowns (snd dm)))
       (design_methods a).

Definition well_bounded (u : Unknown) : bool :=
  match lower_bound u, upper_bound u with
  | Some lo, Some hi => Qle_bool lo hi && negb (Qeq_bool lo hi)
  | _, _ => true
  end.

End AssemblyModel.

(** * Theorems *)

Unset Implicit Arguments.

(** Unfold the model down to the arithmetic of the instance. *)
Ltac model :=
  cbv [compute set set_inward Inward_eqb setup setup_inwards setup_outwards
       Turbofan_setup geom0 tf_geom port_of_ones c1_of_ones ones
       hub_above_tip long_secondary unit_area double_area_no_length
       fan_radius turbine_radius primary_nozzle_length cowl_tan sec_noz_tip_z
       pri_radicand sec_radicand
       r_ kp_r kp_z kp_add kp_mul kp_scale
       inlet_hub_r inlet_hub_z inlet_tip_r inlet_tip_z
       exit_hub_r exit_hub_z exit_tip_r exit_tip_z
       inlet_hub inlet_tip exit_hub exit_tip rz drdz
       inwards inlet_kp fanmodule_kp core_kp shaft_kp tcf_kp turbine_kp trf_kp
       primary_nozzle_kp secondary_nozzle_kp outwards
       fan_inlet_tip_kp ogv_exit_hub_kp ogv_exit_tip_kp turbine_exit_tip_kp
       pri_nozzle_exit_kp sec_nozzle_exit_kp sec_nozzle_exit_hub_kp frd_mount
       aft_mount fan_module_length engine_length
       contiguous all_contiguous same_outputs lerp midpoint
       fst snd
       Exact lit fadd fsub fmul fdiv fneg fpow2 np_sqrt np_tan np_radians
       np_pi py_max slope_to_drdz].

(** The operations of [Exact] as operations of [R], the model left folded. *)
Ltac exact_ops :=
  cbn [Exact lit fadd fsub fmul fdiv fneg fpow2 np_sqrt np_tan np_radians
       np_pi py_max slope_to_drdz r_ kp_r kp_z kp_add kp_mul kp_scale fst snd].

(** Decimal literals as quotients of integers, then real arithmetic. *)
Ltac literals := unfold Q2R; cbn [Qnum Qden].

Ltac arith := literals; first [lra | nra | solve [field; lra]].

(** ** What holds in every arithmetic

    These follow from the data flow of [compute] alone, so they hold at
    [Exact] and, bit for bit, at [Binary64]. *)

Section Structure.

Context {F : Type} {N : Numeric F}.

Lemma compute_inwards (self : TurbofanGeom F) :
  inwards (compute self) = inwards self.
Proof. reflexivity. Qed.

Lemma compute_reads_inwards_only (g h : TurbofanGeom F) :
  inwards g = inwards h -> compute g = compute h.
Proof.
  intros E.
  destruct g as [ig ? ? ? ? ? ? ? ? ? ?], h as [ih ? ? ? ? ? ? ? ? ? ?].
  simpl in E. subst ih. reflexivity.
Qed.

Lemma compute_idempotent (self : TurbofanGeom F) :
  compute (compute self) = compute self.
Proof. apply compute_reads_inwards_only, compute_inwards. Qed.

Lemma set_inwards (n : Inward) (v : F) (self : TurbofanGeom F) :
  inwards (set n v self) = set_inward n v (inwards self).
Proof. reflexivity. Qed.

Lemma set_inward_same (n : Inward) (v : F) (i : Inwards F) :
  set_inward n v i n = v.
Proof.
  unfold set_inward. now destruct n.
Qed.

Lemma set_inward_other (n m : Inward) (v : F) (i : Inwards F) :
  m <> n -> set_inward n v i m = i m.
Proof.
  intros ne. unfold set_inward.
  destruct m, n; try reflexivity; now contradiction ne.
Qed.

(** *** The assignments of [compute], read back from the result *)

Local Open Scope num_scope.

Lemma primary_nozzle_exit_hub_eq (self : TurbofanGeom F) :
  let pn := primary_nozzle_kp (compute self) in
  exit_hub pn
  = kp_add (inlet_hub pn) (r_ (lit 0.0) (primary_nozzle_length self)).
Proof. reflexivity. Qed.

Lemma primary_nozzle_exit_tip_eq (self : TurbofanGeom F) :
  let g := compute self in
  let pn := primary_nozzle_kp g in
  exit_tip pn =
  r_ (np_sqrt (inwards self pri_nozzle_area_ratio
               * (np_pi * (fpow2 (inlet_tip_r pn) - fpow2 (inlet_hub_r pn)))
               / np_pi
               + fpow2 (inlet_hub_r pn)))
     (exit_tip_z (trf_kp g)).
Proof. reflexivity. Qed.

Lemma pri_nozzle_exit_kp_eq (self : TurbofanGeom F) :
  let g := compute self in
  let min_dz :=
    (exit_tip_r (primary_nozzle_kp g) - exit_tip_r (trf_kp g))
    / cowl_tan self in
  let dz := py_max min_dz (primary_nozzle_length self) in
  rz (pri_nozzle_exit_kp (outwards g))
  = kp_add (exit_tip (trf_kp g)) (r_ (dz * cowl_tan self) dz).
Proof. reflexivity. Qed.

Lemma secondary_nozzle_exit_hub_eq (self : TurbofanGeom F) :
  let g := compute self in
  let dz := exit_tip_z (trf_kp g) - sec_noz_tip_z g in
  exit_hub (secondary_nozzle_kp g)
  = r_ (exit_tip_r (trf_kp g) + - dz * cowl_tan self) (sec_noz_tip_z g).
Proof. reflexivity. Qed.

Lemma secondary_nozzle_exit_tip_eq (self : TurbofanGeom F) :
  let g := compute self in
  let sn := secondary_nozzle_kp g in
  exit_tip sn =
  r_ (np_sqrt (inwards self sec_nozzle_area_ratio
               * (np_pi * (fpow2 (inlet_tip_r sn) - fpow2 (inlet_hub_r sn)))
               / np_pi
               + fpow2 (exit_hub_r sn)))
     (sec_noz_tip_z g).
Proof. reflexivity. Qed.

Lemma exit_tip_r_eq (self : TurbofanGeom F) :
  let g := compute self in
  exit_tip_r (primary_nozzle_kp g) = np_sqrt (pri_radicand g) /\
  exit_tip_r (secondary_nozzle_kp g) = np_sqrt (sec_radicand g).
Proof. split; reflexivity. Qed.

Lemma sec_nozzle_exit_kp_eq (self : TurbofanGeom F) :
  sec_nozzle_exit_kp (outwards (compute self))
  = exit_tip (secondary_nozzle_kp (compute self)).
Proof. reflexivity. Qed.

Lemma engine_length_eq (self : TurbofanGeom F) :
  let inw := inwards self in
  engine_length (outwards (compute self))
  = fan_module_length (outwards (compute self))
    + fan_radius self * inw core_inlet_radius_ratio * inw core_length_ratio
    + turbine_radius self * inw turbine_length_ratio
    + turbine_radius self * inw trf_length_ratio.
Proof. reflexivity. Qed.

(** Neither the trf nor the primary nozzle port reads the cowl slope. *)
Lemma slope_free_ports (a : F) (self : TurbofanGeom F) :
  trf_kp (compute (set core_cowl_slope a self)) = trf_kp (compute self) /\
  primary_nozzle_kp (compute (set core_cowl_slope a self))
  = primary_nozzle_kp (compute self).
Proof. destruct self as [inw ? ? ? ? ? ? ? ? ? ?]. split; reflexivity. Qed.

(** [secondary_nozzle_length_ratio] is declared and never read. *)
Lemma secondary_nozzle_length_ratio_unused (v : F) (self : TurbofanGeom F) :
  same_outputs (compute (set secondary_nozzle_length_ratio v self))
               (compute self).
Proof.
  destruct self as [inw ? ? ? ? ? ? ? ? ? ?].
  unfold same_outputs. repeat apply conj; vm_compute; reflexivity.
Qed.

Lemma mounts_eq (self : TurbofanGeom F) :
  let g := compute self in
  frd_mount (outwards g)
  = kp_add (kp_scale (lit 1 - inwards self frd_mount_relative)
                     (inlet_tip (fanmodule_kp g)))
           (kp_scale (inwards self frd_mount_relative)
                     (exit_tip (fanmodule_kp g))) /\
  aft_mount (outwards g)
  = kp_add (kp_scale (lit 1 - inwards self aft_mount_relative)
                     (inlet_tip (trf_kp g)))
           (kp_scale (inwards self aft_mount_relative)
                     (exit_tip (trf_kp g))).
Proof. split; reflexivity. Qed.

(** C1, as the code has it: the stages of the flow path that [compute]
    chains by copying a keypoint.  Inlet and fan module, core and tcf, trf
    and primary nozzle share both the hub and the tip keypoint.  The shaft
    starts at the fan module exit hub; the core sits around the shaft, its
    inlet hub being the shaft inlet tip; the turbine takes its inlet tip
    from the tcf and its inlet hub from the shaft; the trf takes its inlet
    tip from the turbine and only the axial position of its inlet hub. *)
Theorem stage_chain (self : TurbofanGeom F) :
  let g := compute self in
  contiguous (inlet_kp g) (fanmodule_kp g) /\
  contiguous (core_kp g) (tcf_kp g) /\
  contiguous (trf_kp g) (primary_nozzle_kp g) /\
  inlet_hub (shaft_kp g) = exit_hub (fanmodule_kp g) /\
  inlet_hub (core_kp g) = inlet_tip (shaft_kp g) /\
  inlet_tip (turbine_kp g) = exit_tip (tcf_kp g) /\
  inlet_hub (turbine_kp g) = exit_hub (shaft_kp g) /\
  inlet_tip (trf_kp g) = exit_tip (turbine_kp g) /\
  inlet_hub_z (trf_kp g) = exit_hub_z (turbine_kp g).
Proof.
  cbv zeta. unfold contiguous. repeat apply conj; reflexivity.
Qed.

(** C8: [compute] leaves the inwards as they were, what it writes is a
    function of the inwards alone (the outputs of an earlier pass are never
    read), and a second pass writes the same values again. *)
Theorem compute_deterministic (g h : TurbofanGeom F) :
  inwards g = inwards h ->
  compute g = compute h /\
  inwards (compute g) = inwards g /\
  compute (compute g) = compute g.
Proof.
  intros E. split; [|split].
  - now apply compute_reads_inwards_only.
  - apply compute_inwards.
  - apply compute_idempotent.
Qed.

(** C10: the fan module inlet hub is the origin, and the fan module inlet
    tip lies in the plane z = 0, whatever the inwards are. *)
Theorem fan_inlet_at_origin (self : TurbofanGeom F) :
  inlet_hub (fanmodule_kp (compute self)) = r_ (lit 0.0) (lit 0.0) /\
  inlet_tip_z (fanmodule_kp (compute self)) = lit 0.0.
Proof. split; reflexivity. Qed.

End Structure.

(** ** Exact arithmetic *)

Section ExactTheorems.

Context {U : Utils R}.

Local Open Scope R_scope.

Lemma area_ratio_roundtrip (ratio area hub hub' : R) :
  hub' = hub ->
  0 <= ratio * area / PI + hub' ^ 2 ->
  PI * (sqrt (ratio * area / PI + hub ^ 2) ^ 2 - hub' ^ 2) = ratio * area.
Proof.
  intros -> H. rewrite pow2_sqrt by exact H. field. apply PI_neq0.
Qed.

(** The radicand is not negative as soon as the area ratio is not and the
    inlet hub lies within the inlet tip. *)
Lemma radicand_nonneg (ratio : R) (kp : KeypointsPort R) :
  0 <= ratio -> inlet_hub_r kp ^ 2 <= inlet_tip_r kp ^ 2 ->
  0 <= radicand ratio kp.
Proof.
  intros Hr Hk. unfold radicand.
  replace (ratio * (PI * (inlet_tip_r kp ^ 2 - inlet_hub_r kp ^ 2)) / PI)
    with (ratio * (inlet_tip_r kp ^ 2 - inlet_hub_r kp ^ 2))
    by (field; apply PI_neq0).
  nra.
Qed.

(** C3, amended: for each nozzle the exit annulus has [area_ratio] times
    the area of the inlet annulus, provided the number under the square
    root, [area_ratio * inlet_area / pi + exit_hub_r ** 2], is not
    negative. *)
Theorem nozzle_area_ratio (self : TurbofanGeom R) :
  let g := compute self in
  let pri := inwards self pri_nozzle_area_ratio in
  let sec := inwards self sec_nozzle_area_ratio in
  (0 <= radicand pri (primary_nozzle_kp g) ->
   area_ratio_holds pri (primary_nozzle_kp g)) /\
  (0 <= radicand sec (secondary_nozzle_kp g) ->
   area_ratio_holds sec (secondary_nozzle_kp g)).
Proof.
  intros g pri sec. unfold area_ratio_holds, radicand. split.
  - unfold exit_tip_r, exit_hub_r. subst g.
    rewrite (primary_nozzle_exit_tip_eq self),
            (primary_nozzle_exit_hub_eq self).
    exact_ops. apply area_ratio_roundtrip.
    unfold inlet_hub_r. arith.
  - unfold exit_tip_r. subst g.
    rewrite (secondary_nozzle_exit_tip_eq self).
    exact_ops. apply area_ratio_roundtrip. reflexivity.
Qed.



(** [pri_nozzle_exit_kp.rz] and [secondary_nozzle_kp.exit_hub] over [R] *)
Lemma pri_exit_rz_exact (self : TurbofanGeom R) :
  let g := compute self in
  let t := tan (inwards self core_cowl_slope * (PI / 180)) in
  let dz :=
    Rmax ((exit_tip_r (primary_nozzle_kp g) - exit_tip_r (trf_kp g)) / t)
         (primary_nozzle_length self) in
  rz (pri_nozzle_exit_kp (outwards g))
  = (exit_tip_r (trf_kp g) + dz * t, exit_tip_z (trf_kp g) + dz).
Proof. exact (pri_nozzle_exit_kp_eq self). Qed.

Lemma sec_exit_hub_exact (self : TurbofanGeom R) :
  let g := compute self in
  let t := tan (inwards self core_cowl_slope * (PI / 180)) in
  exit_hub (secondary_nozzle_kp g)
  = (exit_tip_r (trf_kp g)
     + - (exit_tip_z (trf_kp g) - sec_noz_tip_z g) * t,
     sec_noz_tip_z g).
Proof. exact (secondary_nozzle_exit_hub_eq self). Qed.


(** C6: each mount is the linear interpolation of the tip keypoints of its
    stage (the fan module for the forward mount, the trf for the aft one)
    at the relative position, for every real relative position: at 0 it is
    the inlet tip, at 1/2 the midpoint, at 1 the exit tip, and outside
    [0, 1] it lies on the same line beyond the stage (at 2, as far past
    the exit tip as the stage is long). *)
Theorem mount_interpolation (self : TurbofanGeom R) (r : R) :
  let fm := fanmodule_kp (compute self) in
  let trf := trf_kp (compute self) in
  let frd x :=
    frd_mount (outwards (compute (set frd_mount_relative x self))) in
  let aft x :=
    aft_mount (outwards (compute (set aft_mount_relative x self))) in
  (frd r = lerp r (inlet_tip fm) (exit_tip fm) /\
   frd 0 = inlet_tip fm /\
   frd (1 / 2) = midpoint (inlet_tip fm) (exit_tip fm) /\
   frd 1 = exit_tip fm /\
   frd 2 = (2 * kp_r (exit_tip fm) - kp_r (inlet_tip fm),
            2 * kp_z (exit_tip fm) - kp_z (inlet_tip fm))) /\
  (aft r = lerp r (inlet_tip trf) (exit_tip trf) /\
   aft 0 = inlet_tip trf /\
   aft (1 / 2) = midpoint (inlet_tip trf) (exit_tip trf) /\
   aft 1 = exit_tip trf /\
   aft 2 = (2 * kp_r (exit_tip trf) - kp_r (inlet_tip trf),
            2 * kp_z (exit_tip trf) - kp_z (inlet_tip trf))).
Proof.
  destruct self as [inw ? ? ? ? ? ? ? ? ? ?].
  model. repeat apply conj; f_equal; arith.
Qed.


(** The radius stored in [primary_nozzle_kp.exit_tip] does not depend on
    the slope at all. *)
Lemma primary_nozzle_kp_slope_free (self : TurbofanGeom R) (a : R) :
  exit_tip_r (primary_nozzle_kp (compute (set core_cowl_slope a self)))
  = exit_tip_r (primary_nozzle_kp (compute self)).
Proof. now destruct (slope_free_ports a self) as [_ ->]. Qed.

(** C9, amended: in every arithmetic the engine length is the sum
    [fanmodule_length + core_length + turbine_length + trf_length] and the
    axial position of the trf exit hub is the sum
    [0.0 + fanmodule_length + (core_length + tcf_length) + turbine_length
    + trf_length], each in the order [compute] adds them: the tcf length is
    part of the chain of keypoints and not of the engine length.  In exact
    arithmetic the tcf length is what separates the tcf hub keypoints, and
    the engine length is the position of the trf exit hub minus the tcf
    length. *)
Theorem engine_length_excludes_tcf :
  (forall (F : Type) (N : Numeric F) (self : TurbofanGeom F),
     let g := compute self in
     let inw := inwards self in
     let fanmodule_length :=
       (fan_radius self * inw fanmodule_length_ratio)%num in
     let core_length :=
       (fan_radius self * inw core_inlet_radius_ratio
        * inw core_length_ratio)%num in
     let tcf_length := (inlet_tip_r (tcf_kp g) * inw tcf_length_ratio)%num in
     let turbine_length :=
       (turbine_radius self * inw turbine_length_ratio)%num in
     let trf_length := (turbine_radius self * inw trf_length_ratio)%num in
     engine_length (outwards g)
     = (fanmodule_length + core_length + turbine_length + trf_length)%num /\
     exit_hub_z (trf_kp g)
     = (lit 0.0 + fanmodule_length + (core_length + tcf_length)
        + turbine_length + trf_length)%num) /\
  (forall self : TurbofanGeom R,
     let g := compute self in
     let tcf_length := inlet_tip_r (tcf_kp g) * inwards self tcf_length_ratio in
     exit_hub_z (tcf_kp g) - inlet_hub_z (tcf_kp g) = tcf_length /\
     engine_length (outwards g) = exit_hub_z (trf_kp g) - tcf_length).
Proof.
  split.
  - intros F N self. destruct self as [inw ? ? ? ? ? ? ? ? ? ?].
    cbv zeta. split; reflexivity.
  - intros self. destruct self as [inw ? ? ? ? ? ? ? ? ? ?].
    model. repeat apply conj; arith.
Qed.

(** The origin of C10 is the real point (0, 0). *)
Lemma fan_inlet_at_origin_exact (self : TurbofanGeom R) :
  inlet_hub (fanmodule_kp (compute self)) = (0, 0) /\
  inlet_tip_z (fanmodule_kp (compute self)) = 0.
Proof.
  destruct self as [inw ? ? ? ? ? ? ? ? ? ?].
  model. split; try f_equal; arith.
Qed.

(** The scenario of C2 in exact arithmetic. *)
Lemma example_scenario_exact (self : TurbofanGeom R) :
  let g := compute (set fanmodule_length_ratio (lit 1.0)
                      (set fan_diameter (lit 1.549) self)) in
  fan_module_length (outwards g) = 0.7745 /\
  inlet_tip (fanmodule_kp g) = (0.7745, 0) /\
  exit_tip (fanmodule_kp g) = (0.7745, 0.7745).
Proof.
  destruct self as [inw ? ? ? ? ? ? ? ? ? ?].
  model. repeat apply conj; try f_equal; arith.
Qed.

End ExactTheorems.

(** ** Exact arithmetic, at concrete inwards *)

Section ExactExamples.

#[local] Existing Instance ref_utils_R.

Local Open Scope R_scope.

(** C1, as stated, fails at the defaults of [setup]: the shaft inlet tip is
    at radius 0.08 and the fan module exit tip at radius 0.8. *)
Lemma stage_chain_counterexample : ~ all_contiguous (compute geom0).
Proof.
  model. intros (_ & (_ & H) & _). injection H as H _. revert H. arith.
Qed.

Lemma nozzle_area_ratio_witness :
  (0 <= radicand (inwards geom0 pri_nozzle_area_ratio)
                 (primary_nozzle_kp (compute geom0)) /\
   area_ratio_holds (inwards geom0 pri_nozzle_area_ratio)
                    (primary_nozzle_kp (compute geom0))) /\
  (0 <= radicand (inwards geom0 sec_nozzle_area_ratio)
                 (secondary_nozzle_kp (compute geom0)) /\
   area_ratio_holds (inwards geom0 sec_nozzle_area_ratio)
                    (secondary_nozzle_kp (compute geom0))).
Proof.
  assert (P : 0 <= radicand (inwards geom0 pri_nozzle_area_ratio)
                            (primary_nozzle_kp (compute geom0))).
  { apply radicand_nonneg; model; arith. }
  assert (S : 0 <= radicand (inwards geom0 sec_nozzle_area_ratio)
                            (secondary_nozzle_kp (compute geom0))).
  { apply radicand_nonneg; model; arith. }
  destruct (nozzle_area_ratio geom0) as [Hp Hs].
  exact (conj (conj P (Hp P)) (conj S (Hs S))).
Defined.

(** C3, as stated, fails where the inlet hub lies outside the inlet tip:
    with an area ratio of 2, a tip radius of 0.52 and a hub radius of 1.04
    the exit annulus would need a tip radius whose square is -0.5408. *)
Lemma nozzle_area_ratio_counterexample :
  0 < inwards hub_above_tip pri_nozzle_area_ratio <= 2 /\
  ~ area_ratio_holds (inwards hub_above_tip pri_nozzle_area_ratio)
                     (primary_nozzle_kp (compute hub_above_tip)).
Proof.
  split.
  - model. arith.
  - unfold area_ratio_holds. model.
    match goal with |- context [sqrt ?x] => generalize (sqrt x) end.
    intros r. literals. pose proof PI_RGT_0 as Hpi. intros E.
    assert (0 < PI * (r ^ 2 + 0.5408)) by (apply Rmult_lt_0_compat; nra).
    nra.
Qed.

(** The secondary nozzle over the reals: with a nominal length of two fan
    radii (1.6) its exit lies 0.2514 before the trf exit and 0.9826 past the
    fan module exit, and neither is a maximum with 1.6. *)
Lemma secondary_offsets_not_max_exact :
  let g := compute long_secondary in
  let nominal :=
    fan_radius long_secondary
    * inwards long_secondary secondary_nozzle_length_ratio in
  ~ offset_is_max
      (exit_tip_z (trf_kp g) - exit_hub_z (secondary_nozzle_kp g)) nominal /\
  ~ offset_is_max
      (exit_hub_z (secondary_nozzle_kp g) - exit_tip_z (fanmodule_kp g))
      nominal.
Proof.
  cbv zeta. unfold offset_is_max.
  split; intros [required E];
    pose proof (Rmax_r required
      (fan_radius long_secondary
       * inwards long_secondary secondary_nozzle_length_ratio)) as Hm;
    rewrite <- E in Hm; revert Hm; clear E; model; arith.
Qed.






End ExactExamples.

(** ** Binary64 *)

Section Binary64Theorems.

Local Open Scope float_scope.

(** *** NaN in IEEE 754 arithmetic *)

Lemma Prim2SF_nan : Prim2SF nan = S754_nan.
Proof. reflexivity. Qed.

Lemma nan_of_spec (x : float) : Prim2SF x = S754_nan -> x = nan.
Proof. intros H. apply Prim2SF_inj. now rewrite H. Qed.

Lemma sqrt_negative (x : float) : (x <? 0) = true -> PrimFloat.sqrt x = nan.
Proof.
  intros H. apply nan_of_spec. rewrite sqrt_spec.
  rewrite ltb_spec in H. change (Prim2SF 0) with (S754_zero false) in H.
  destruct (Prim2SF x) as [s | s | | s m e]; try destruct s;
    try discriminate H; reflexivity.
Qed.

Lemma sub_nan_l (y : float) : nan - y = nan.
Proof. apply nan_of_spec. rewrite sub_spec, Prim2SF_nan. reflexivity. Qed.

Lemma div_nan_l (y : float) : nan / y = nan.
Proof. apply nan_of_spec. rewrite div_spec, Prim2SF_nan. reflexivity. Qed.

Lemma mul_nan_l (y : float) : nan * y = nan.
Proof. apply nan_of_spec. rewrite mul_spec, Prim2SF_nan. reflexivity. Qed.

Lemma add_nan_r (x : float) : x + nan = nan.
Proof.
  apply nan_of_spec. rewrite add_spec, Prim2SF_nan.
  now destruct (Prim2SF x) as [s | s | | s m e].
Qed.

Lemma float_max_nan_l (y : float) : float_max nan y = nan.
Proof. unfold float_max. rewrite ltb_spec, Prim2SF_nan. reflexivity. Qed.

(** The literals of the scenario of C2: 0.7745 is read as half of what
    1.549 is read as. *)
Lemma float_lit_1549 :
  float_lit 1.549 = 0x1.8c8b439581062p+0 /\
  float_lit 0.7745 = 0x1.8c8b439581062p-1.
Proof. split; reflexivity. Qed.

Context {L : Libm} {U : Utils float}.

(** C2: with [fan_diameter = 1.549] and [fanmodule_length_ratio = 1.0],
    whatever the other inwards are, the pass writes 0.7745 to
    [fan_module_length], (0.7745, 0.0) to the fan module inlet tip and
    (0.7745, 0.7745) to its exit tip, as binary64 numbers. *)
Theorem example_scenario (self : TurbofanGeom float) :
  let g := compute (set fanmodule_length_ratio (lit 1.0)
                      (set fan_diameter (lit 1.549) self)) in
  fan_module_length (outwards g) = lit 0.7745 /\
  inlet_tip (fanmodule_kp g) = r_ (lit 0.7745) (lit 0.0) /\
  exit_tip (fanmodule_kp g) = r_ (lit 0.7745) (lit 0.7745).
Proof.
  destruct self as [inw ? ? ? ? ? ? ? ? ? ?].
  cbv zeta. repeat apply conj; vm_compute; reflexivity.
Qed.

(** The origin of C10 is the pair of positive zeros. *)
Lemma fan_inlet_at_origin_binary64 (self : TurbofanGeom float) :
  inlet_hub (fanmodule_kp (compute self)) = (0, 0) /\
  inlet_tip_z (fanmodule_kp (compute self)) = 0.
Proof. split; reflexivity. Qed.

(** C5, amended: where the number under a square root is negative the pass
    does not fail.  The square root is NaN; it is stored as the exit tip
    radius of the nozzle and reaches what is computed from it, both
    coordinates of [pri_nozzle_exit_kp.rz] for the primary nozzle and
    [sec_nozzle_exit_kp] for the secondary one.  Nothing is clamped and no
    default is put in its place. *)
Theorem sqrt_of_negative_is_nan (self : TurbofanGeom float) :
  let g := compute self in
  ((pri_radicand g <? 0) = true ->
   exit_tip_r (primary_nozzle_kp g) = nan /\
   rz (pri_nozzle_exit_kp (outwards g)) = (nan, nan)) /\
  ((sec_radicand g <? 0) = true ->
   exit_tip_r (secondary_nozzle_kp g) = nan /\
   kp_r (sec_nozzle_exit_kp (outwards g)) = nan).
Proof.
  intros g. destruct (exit_tip_r_eq self) as [Ep Es]. fold g in Ep, Es.
  split; intros H.
  - assert (E : exit_tip_r (primary_nozzle_kp g) = nan)
      by (rewrite Ep; now apply sqrt_negative).
    split; [exact E|].
    subst g. rewrite (pri_nozzle_exit_kp_eq self). cbv zeta. rewrite E.
    cbn [Binary64 fadd fsub fmul fdiv py_max].
    rewrite sub_nan_l, div_nan_l, float_max_nan_l, mul_nan_l.
    unfold kp_add, r_, kp_r, kp_z, fst, snd. cbn [Binary64 fadd].
    rewrite !add_nan_r. reflexivity.
  - assert (E : exit_tip_r (secondary_nozzle_kp g) = nan)
      by (rewrite Es; now apply sqrt_negative).
    split; [exact E|].
    subst g. rewrite (sec_nozzle_exit_kp_eq self). exact E.
Qed.

End Binary64Theorems.

(** ** Binary64, at concrete inwards *)

Section Binary64Examples.

#[local] Existing Instance ref_libm.
#[local] Existing Instance ref_utils_float.

Local Open Scope float_scope.

(** The scenario of C2 at the values [Turbofan.setup] leaves in [geom]. *)
Lemma example_scenario_tf_geom :
  let g := compute tf_geom in
  fan_module_length (outwards g) = lit 0.7745 /\
  inlet_tip (fanmodule_kp g) = (lit 0.7745, lit 0.0) /\
  exit_tip (fanmodule_kp g) = (lit 0.7745, lit 0.7745).
Proof. cbv zeta. repeat apply conj; vm_compute; reflexivity. Qed.

Lemma sqrt_of_negative_is_nan_witness :
  let g := compute hub_above_tip in
  ((pri_radicand g <? 0) = true /\
   exit_tip_r (primary_nozzle_kp g) = nan /\
   rz (pri_nozzle_exit_kp (outwards g)) = (nan, nan)) /\
  ((sec_radicand g <? 0) = true /\
   exit_tip_r (secondary_nozzle_kp g) = nan /\
   kp_r (sec_nozzle_exit_kp (outwards g)) = nan).
Proof.
  cbv zeta.
  assert (P : (pri_radicand (compute hub_above_tip) <? 0) = true)
    by (vm_compute; reflexivity).
  assert (S : (sec_radicand (compute hub_above_tip) <? 0) = true)
    by (vm_compute; reflexivity).
  destruct (sqrt_of_negative_is_nan hub_above_tip) as [Hp Hs].
  exact (conj (conj P (Hp P)) (conj S (Hs S))).
Defined.

(** C5, as stated, fails where the turbine exit hub-to-tip ratio and the
    primary area ratio are 2: the number under the square root is negative,
    and the pass returns with its ports written, NaN being the exit tip
    radius of the primary nozzle next to an axial position of
    2.0340000000000003. *)
Lemma nan_is_stored :
  let g := compute hub_above_tip in
  (pri_radicand g <? 0) = true /\
  exit_tip (primary_nozzle_kp g) = (nan, 0x1.045a1cac08313p+1) /\
  exit_hub (primary_nozzle_kp g)
  = (0x1.0a3d70a3d70a4p+0, 0x1.25a1cac083128p+1) /\
  rz (pri_nozzle_exit_kp (outwards g)) = (nan, nan) /\
  engine_length (outwards g) = 0x1.ff7ced916872cp+0.
Proof. cbv zeta. repeat apply conj; vm_compute; reflexivity. Qed.

(** C6 and C9 at the values [Turbofan.setup] leaves in [geom]: here the
    equalities of exact arithmetic also hold between the binary64 numbers. *)
Lemma mount_interpolation_tf_geom :
  let fm := fanmodule_kp (compute tf_geom) in
  let frd x :=
    frd_mount (outwards (compute (set frd_mount_relative x tf_geom))) in
  frd 0 = inlet_tip fm /\
  frd 0.5 = ((kp_r (inlet_tip fm) + kp_r (exit_tip fm)) / 2,
             (kp_z (inlet_tip fm) + kp_z (exit_tip fm)) / 2) /\
  frd 1 = exit_tip fm.
Proof. cbv zeta. repeat apply conj; vm_compute; reflexivity. Qed.

Lemma engine_length_tf_geom :
  let g := compute tf_geom in
  engine_length (outwards g)
  = exit_hub_z (trf_kp g)
    - inlet_tip_r (tcf_kp g) * inwards tf_geom tcf_length_ratio.
Proof. vm_compute. reflexivity. Qed.

Lemma compute_deterministic_witness :
  inwards (compute geom0) = inwards (geom0 : TurbofanGeom float) /\
  compute (compute geom0) = compute geom0 /\
  inwards (compute (compute geom0)) = inwards (compute geom0) /\
  compute (compute (compute geom0)) = compute (compute geom0).
Proof.
  split; [reflexivity|].
  apply (compute_deterministic (compute geom0) geom0). reflexivity.
Defined.

(** C9, as stated, fails in binary64: at the defaults of [setup] with a fan
    diameter of 1.2 the engine length is 1.4984999999999999 and the position
    of the trf exit hub minus the tcf length is 1.4985000000000002. *)
Lemma engine_length_excludes_tcf_counterexample :
  let g := compute small_fan in
  engine_length (outwards g)
  <> exit_hub_z (trf_kp g)
     - inlet_tip_r (tcf_kp g) * inwards small_fan tcf_length_ratio.
Proof. vm_compute. intros H. discriminate (f_equal Prim2SF H). Qed.

Lemma ltb_irrefl (x : float) : (x <? x) = false.
Proof.
  rewrite ltb_spec. unfold SFltb.
  destruct (Prim2SF x) as [s | s | | s m e]; try destruct s; cbn;
    try reflexivity;
    rewrite Z.compare_refl, ?Pos.compare_cont_refl, ?Pos.compare_refl;
    reflexivity.
Qed.

(** An offset below the nominal length is the [max] of nothing with it. *)
Lemma float_max_not_below (offset nominal : float) :
  (offset <? nominal) = true -> ~ offset_is_float_max offset nominal.
Proof.
  intros H [required E]. unfold float_max in E.
  destruct (required <? nominal) eqn:Hr; subst offset.
  - rewrite ltb_irrefl in H. discriminate H.
  - rewrite Hr in H. discriminate H.
Qed.

(** C4, a defect of the code: [secondary_nozzle_length_ratio], declared as
    the secondary nozzle length relative to the fan radius, is never read.
    With that ratio at 2.0 and the other inwards at their defaults the
    nominal length is 1.6.  The primary nozzle does take a maximum with its
    nominal length: [pri_nozzle_exit_kp] lies
    [max(min_dz, primary_nozzle_length)] past the trf exit tip.  The
    secondary nozzle does not: every output is what it is with the default
    ratio 0.2, and the secondary nozzle exit lies 0.9826 past its inlet and
    0.2514 before the trf exit, both below 1.6, so that neither offset is
    the maximum of anything with the nominal length. *)
Theorem secondary_nozzle_length_is_ignored :
  let g := compute long_secondary in
  let sn := secondary_nozzle_kp g in
  let nominal :=
    fan_radius long_secondary
    * inwards long_secondary secondary_nozzle_length_ratio in
  let min_dz :=
    (exit_tip_r (primary_nozzle_kp g) - exit_tip_r (trf_kp g))
    / cowl_tan long_secondary in
  kp_z (rz (pri_nozzle_exit_kp (outwards g)))
  = exit_tip_z (trf_kp g)
    + float_max min_dz (primary_nozzle_length long_secondary) /\
  same_outputs g (compute geom0) /\
  nominal = lit 1.6 /\
  (exit_hub_z sn - inlet_hub_z sn <? nominal) = true /\
  (exit_tip_z (trf_kp g) - exit_hub_z sn <? nominal) = true /\
  ~ offset_is_float_max (exit_hub_z sn - inlet_hub_z sn) nominal /\
  ~ offset_is_float_max (exit_tip_z (trf_kp g) - exit_hub_z sn) nominal.
Proof.
  cbv zeta. split; [vm_compute; reflexivity|].
  split; [exact (secondary_nozzle_length_ratio_unused (lit 2.0) geom0)|].
  split; [vm_compute; reflexivity|].
  split; [vm_compute; reflexivity|]. split; [vm_compute; reflexivity|].
  split; apply float_max_not_below; vm_compute; reflexivity.
Qed.

End Binary64Examples.

(** * Further properties of [TurbofanGeom.compute] *)

(** ** In every arithmetic: the outputs an inward reaches *)

Section Locality.

Context {F : Type} {N : Numeric F}.

(** The inlet ratios and the two mount positions are local: whatever values
    [inlet_length_ratio], [inlet_radius_ratio], [frd_mount_relative] and
    [aft_mount_relative] are given, every keypoint downstream of the inlet
    plane, both lengths and every outward but the two mounts are the same;
    only the inlet side of [inlet_kp] and the mounts can move. *)
Theorem inlet_and_mount_inwards_are_local
    (il ir fr ar : F) (self : TurbofanGeom F) :
  let g := compute self in
  let h := compute (set aft_mount_relative ar (set frd_mount_relative fr
             (set inlet_radius_ratio ir (set inlet_length_ratio il self)))) in
  (exit_hub (inlet_kp h) = exit_hub (inlet_kp g) /\
   exit_tip (inlet_kp h) = exit_tip (inlet_kp g) /\
   fanmodule_kp h = fanmodule_kp g /\ core_kp h = core_kp g /\
   shaft_kp h = shaft_kp g /\ tcf_kp h = tcf_kp g /\
   turbine_kp h = turbine_kp g /\ trf_kp h = trf_kp g /\
   primary_nozzle_kp h = primary_nozzle_kp g /\
   secondary_nozzle_kp h = secondary_nozzle_kp g) /\
  (fan_inlet_tip_kp (outwards h) = fan_inlet_tip_kp (outwards g) /\
   ogv_exit_hub_kp (outwards h) = ogv_exit_hub_kp (outwards g) /\
   ogv_exit_tip_kp (outwards h) = ogv_exit_tip_kp (outwards g) /\
   turbine_exit_tip_kp (outwards h) = turbine_exit_tip_kp (outwards g) /\
   pri_nozzle_exit_kp (outwards h) = pri_nozzle_exit_kp (outwards g) /\
   sec_nozzle_exit_kp (outwards h) = sec_nozzle_exit_kp (outwards g) /\
   sec_nozzle_exit_hub_kp (outwards h)
   = sec_nozzle_exit_hub_kp (outwards g) /\
   fan_module_length (outwards h) = fan_module_length (outwards g) /\
   engine_length (outwards h) = engine_length (outwards g)).
Proof.
  destruct self as [inw ? ? ? ? ? ? ? ? ? ?].
  cbv zeta. repeat apply conj; vm_compute; reflexivity.
Qed.

(** The two nozzle area ratios reach the radius of the nozzle exit tips and
    what is read from it, and nothing else: the seven upstream stages, the
    other three keypoints and the exit-tip abscissa of both nozzles, the
    mounts, the cowl keypoint of the secondary nozzle and both lengths are
    the same whatever the two ratios are. *)
Theorem area_ratios_reach_exit_tips_only (p s : F) (self : TurbofanGeom F) :
  let g := compute self in
  let h := compute (set sec_nozzle_area_ratio s
                      (set pri_nozzle_area_ratio p self)) in
  same_upstream_ports h g /\
  (inlet_hub (primary_nozzle_kp h) = inlet_hub (primary_nozzle_kp g) /\
   inlet_tip (primary_nozzle_kp h) = inlet_tip (primary_nozzle_kp g) /\
   exit_hub (primary_nozzle_kp h) = exit_hub (primary_nozzle_kp g) /\
   exit_tip_z (primary_nozzle_kp h) = exit_tip_z (primary_nozzle_kp g)) /\
  (inlet_hub (secondary_nozzle_kp h) = inlet_hub (secondary_nozzle_kp g) /\
   inlet_tip (secondary_nozzle_kp h) = inlet_tip (secondary_nozzle_kp g) /\
   exit_hub (secondary_nozzle_kp h) = exit_hub (secondary_nozzle_kp g) /\
   exit_tip_z (secondary_nozzle_kp h) = exit_tip_z (secondary_nozzle_kp g)) /\
  (fan_inlet_tip_kp (outwards h) = fan_inlet_tip_kp (outwards g) /\
   ogv_exit_hub_kp (outwards h) = ogv_exit_hub_kp (outwards g) /\
   ogv_exit_tip_kp (outwards h) = ogv_exit_tip_kp (outwards g) /\
   turbine_exit_tip_kp (outwards h) = turbine_exit_tip_kp (outwards g) /\
   sec_nozzle_exit_hub_kp (outwards h)
   = sec_nozzle_exit_hub_kp (outwards g) /\
   frd_mount (outwards h) = frd_mount (outwards g) /\
   aft_mount (outwards h) = aft_mount (outwards g) /\
   fan_module_length (outwards h) = fan_module_length (outwards g) /\
   engine_length (outwards h) = engine_length (outwards g)).
Proof.
  destruct self as [inw ? ? ? ? ? ? ? ? ? ?].
  cbv zeta. unfold same_upstream_ports.
  repeat apply conj; vm_compute; reflexivity.
Qed.

(** [core_cowl_slope] reaches the cowl only: the seven upstream stages, the
    whole primary nozzle port, the inlet and both exit abscissas of the
    secondary nozzle port, the mounts, the fan and turbine outwards and both
    lengths are the same whatever the slope is. *)
Theorem cowl_slope_reaches_the_cowl_only (a : F) (self : TurbofanGeom F) :
  let g := compute self in
  let h := compute (set core_cowl_slope a self) in
  same_upstream_ports h g /\
  primary_nozzle_kp h = primary_nozzle_kp g /\
  (inlet_hub (secondary_nozzle_kp h) = inlet_hub (secondary_nozzle_kp g) /\
   inlet_tip (secondary_nozzle_kp h) = inlet_tip (secondary_nozzle_kp g) /\
   exit_hub_z (secondary_nozzle_kp h) = exit_hub_z (secondary_nozzle_kp g) /\
   exit_tip_z (secondary_nozzle_kp h) = exit_tip_z (secondary_nozzle_kp g)) /\
  (fan_inlet_tip_kp (outwards h) = fan_inlet_tip_kp (outwards g) /\
   ogv_exit_hub_kp (outwards h) = ogv_exit_hub_kp (outwards g) /\
   ogv_exit_tip_kp (outwards h) = ogv_exit_tip_kp (outwards g) /\
   turbine_exit_tip_kp (outwards h) = turbine_exit_tip_kp (outwards g) /\
   frd_mount (outwards h) = frd_mount (outwards g) /\
   aft_mount (outwards h) = aft_mount (outwards g) /\
   fan_module_length (outwards h) = fan_module_length (outwards g) /\
   engine_length (outwards h) = engine_length (outwards g)).
Proof.
  destruct self as [inw ? ? ? ? ? ? ? ? ? ?].
  cbv zeta. unfold same_upstream_ports.
  repeat apply conj; vm_compute; reflexivity.
Qed.

End Locality.

(** ** In exact arithmetic: the shape of the flow path *)

Lemma sqrt_scale (k x y : R) :
  (0 <= k -> y = k ^ 2 * x -> sqrt y = k * sqrt x)%R.
Proof.
  intros Hk ->. rewrite sqrt_mult_alt by apply pow2_ge_0.
  now rewrite sqrt_pow2.
Qed.

Lemma Rmax_scale (k a b a' b' : R) :
  (0 <= k -> a' = k * a -> b' = k * b -> Rmax a' b' = k * Rmax a b)%R.
Proof. intros Hk -> ->. now apply RmaxRmult. Qed.

(** With the exit hub at radius [h] and the inlet tip at radius [t], the
    radius the code gives the exit tip is within [t] for an area ratio of at
    most 1 and beyond it for one of at least 1. *)
Lemma nozzle_radius_order (ratio t h : R) :
  (0 <= t -> h ^ 2 <= t ^ 2 -> 0 <= ratio ->
   let rad := ratio * (PI * (t ^ 2 - h ^ 2)) / PI + h ^ 2 in
   (ratio <= 1 -> sqrt rad <= t) /\ (1 <= ratio -> t <= sqrt rad))%R.
Proof.
  intros Ht Hh Hr rad.
  assert (E : (rad = ratio * (t ^ 2 - h ^ 2) + h ^ 2)%R)
    by (unfold rad; field; apply PI_neq0).
  rewrite E. split; intros H.
  - rewrite <- (sqrt_pow2 t Ht) at 2. apply sqrt_le_1_alt. nra.
  - rewrite <- (sqrt_pow2 t Ht) at 1. apply sqrt_le_1_alt. nra.
Qed.

Ltac split_records :=
  repeat match goal with
  | |- _ /\ _ => split
  | |- Build_KeypointsPort _ _ _ _ = Build_KeypointsPort _ _ _ _ =>
      apply f_equal4
  | |- Build_C1Keypoint _ _ = Build_C1Keypoint _ _ => apply f_equal2
  | |- (_, _) = (_, _) => apply f_equal2
  end.

Section ExactGeometry.

Context {U : Utils R}.

Local Open Scope R_scope.

(** The radicands of the two square roots, from the ports after the pass:
    the primary nozzle has its exit hub at the radius of its inlet hub. *)
Lemma pri_radicand_eq (self : TurbofanGeom R) :
  let g := compute self in
  pri_radicand g
  = radicand (inwards self pri_nozzle_area_ratio) (primary_nozzle_kp g).
Proof.
  intros g.
  assert (Ee : exit_hub_r (primary_nozzle_kp g)
               = inlet_hub_r (primary_nozzle_kp g)).
  { subst g. unfold exit_hub_r. rewrite (primary_nozzle_exit_hub_eq self).
    exact_ops. unfold inlet_hub_r. arith. }
  unfold radicand. rewrite Ee. reflexivity.
Qed.

Lemma sec_radicand_eq (self : TurbofanGeom R) :
  let g := compute self in
  sec_radicand g
  = radicand (inwards self sec_nozzle_area_ratio) (secondary_nozzle_kp g).
Proof. reflexivity. Qed.

Lemma proper_exit_of_radicand (ratio : R) (kp : KeypointsPort R) :
  0 <= ratio -> inlet_hub_r kp ^ 2 <= inlet_tip_r kp ^ 2 ->
  exit_tip_r kp = sqrt (radicand ratio kp) -> proper_exit kp.
Proof.
  intros Hr Hk E. pose proof (radicand_nonneg _ _ Hr Hk) as Hrad.
  unfold proper_exit. rewrite E. split; [apply sqrt_pos|].
  rewrite pow2_sqrt by exact Hrad. unfold radicand.
  replace (ratio * (PI * (inlet_tip_r kp ^ 2 - inlet_hub_r kp ^ 2)) / PI)
    with (ratio * (inlet_tip_r kp ^ 2 - inlet_hub_r kp ^ 2))
    by (field; apply PI_neq0).
  nra.
Qed.

(** The whole geometry is proportional to [fan_diameter]: with the fan
    diameter multiplied by [k >= 0] and every other inward kept, each
    keypoint of each port and of each outward is multiplied by [k], both
    lengths are, and the two cowl slopes are kept.  The radicands are taken
    not negative, so that the two square roots are real ones, and the cowl
    tangent not zero, so that the quotient is one. *)
Theorem geometry_scales_with_fan_diameter (self : TurbofanGeom R) (k : R) :
  let g := compute self in
  0 <= k -> 0 <= pri_radicand g -> 0 <= sec_radicand g ->
  cowl_tan self <> 0 ->
  scaled k g (compute (set fan_diameter (k * inwards self fan_diameter) self)).
Proof.
  destruct self as [inw ? ? ? ? ? ? ? ? ? ?].
  intros g Hk _ _. subst g.
  unfold scaled, scale_port, scale_c1, scale_kp. model. literals. intros Ht.
  repeat
    match goal with
    | |- context [sqrt ?Y] =>
        match goal with
        | |- context [sqrt ?X] =>
            assert_fails (constr_eq X Y);
            let E := fresh "E" in
            assert (E : sqrt Y = k * sqrt X)
              by (apply (sqrt_scale k X Y Hk); field; apply PI_neq0);
            rewrite E; clear E
        end
    end.
  repeat
    match goal with
    | |- context [Rmax ?A' ?B'] =>
        match goal with
        | |- context [Rmax ?A ?B] =>
            assert_fails (constr_eq A A');
            let E := fresh "E" in
            assert (E : Rmax A' B' = k * Rmax A B)
              by (apply (Rmax_scale k A B A' B' Hk); field; exact Ht);
            rewrite E; clear E
        end
    end.
  split_records; try (field; exact Ht); try reflexivity.
Qed.

(** Every station is a plane of constant z: the inlet hub and tip of a stage
    have one abscissa and so have its exit hub and tip, for the inlet, the
    fan module, the shaft, the core, the TCF, the turbine, the TRF and the
    secondary nozzle.  The primary nozzle is the exception: its exit tip is
    at the abscissa of its inlet, and its exit hub one nozzle length
    downstream of it. *)
Theorem stations_are_planes (self : TurbofanGeom R) :
  let g := compute self in
  planar (inlet_kp g) /\ planar (fanmodule_kp g) /\ planar (shaft_kp g) /\
  planar (core_kp g) /\ planar (tcf_kp g) /\ planar (turbine_kp g) /\
  planar (trf_kp g) /\ planar (secondary_nozzle_kp g) /\
  inlet_hub_z (primary_nozzle_kp g) = inlet_tip_z (primary_nozzle_kp g) /\
  exit_tip_z (primary_nozzle_kp g) = inlet_tip_z (primary_nozzle_kp g) /\
  exit_hub_z (primary_nozzle_kp g) - exit_tip_z (primary_nozzle_kp g)
  = primary_nozzle_length self.
Proof.
  destruct self as [inw ? ? ? ? ? ? ? ? ? ?].
  unfold planar. model. repeat apply conj; arith.
Qed.

(** With a fan diameter and length and radius ratios that are not negative,
    no stage runs upstream: every port has its exit at or downstream of its
    inlet, the fan face is at z = 0, and the exit planes follow one another
    from the inlet through the fan module, the core, the TCF (where the
    shaft ends too), the turbine and the TRF to the end of the primary
    nozzle; the secondary nozzle ends at or upstream of the turbine exit. *)
Theorem stages_run_downstream (self : TurbofanGeom R) :
  nonneg_lengths self ->
  let g := compute self in
  (forward (inlet_kp g) /\ forward (fanmodule_kp g) /\ forward (shaft_kp g) /\
   forward (core_kp g) /\ forward (tcf_kp g) /\ forward (turbine_kp g) /\
   forward (trf_kp g) /\ forward (primary_nozzle_kp g) /\
   forward (secondary_nozzle_kp g)) /\
  exit_hub_z (inlet_kp g) = 0 /\
  exit_hub_z (inlet_kp g) <= exit_hub_z (fanmodule_kp g) /\
  exit_hub_z (fanmodule_kp g) <= exit_hub_z (core_kp g) /\
  exit_hub_z (core_kp g) <= exit_hub_z (tcf_kp g) /\
  exit_hub_z (tcf_kp g) = exit_hub_z (shaft_kp g) /\
  exit_hub_z (tcf_kp g) <= exit_hub_z (turbine_kp g) /\
  exit_hub_z (turbine_kp g) <= exit_hub_z (trf_kp g) /\
  exit_hub_z (trf_kp g) <= exit_hub_z (primary_nozzle_kp g) /\
  exit_hub_z (secondary_nozzle_kp g) <= exit_hub_z (turbine_kp g).
Proof.
  destruct self as [inw ? ? ? ? ? ? ? ? ? ?].
  unfold nonneg_lengths, forward. model. literals.
  intros (Hd & Hil & Hfm & Hci & Hcl & Hce & Htc & Htr & Htl & Htf & Hpn).
  set (fr := inw fan_diameter / (20 * / 10)).
  assert (Hfr : 0 <= fr) by (unfold fr; lra).
  pose proof (Rmult_le_pos _ _ Hfr Hil).
  pose proof (Rmult_le_pos _ _ Hfr Hfm).
  pose proof (Rmult_le_pos _ _ (Rmult_le_pos _ _ Hfr Hci) Hcl).
  pose proof (Rmult_le_pos _ _ (Rmult_le_pos _ _ Hfr Hce) Htc).
  pose proof (Rmult_le_pos _ _ (Rmult_le_pos _ _ Hfr Htr) Htl).
  pose proof (Rmult_le_pos _ _ (Rmult_le_pos _ _ Hfr Htr) Htf).
  pose proof (Rmult_le_pos _ _ (Rmult_le_pos _ _ Hfr Htr) Hpn).
  repeat apply conj; lra.
Qed.

(** With an area ratio that is not negative and an inlet hub within the
    inlet tip, the exit tip of a nozzle is at a radius that is not negative
    and not inside its exit hub: the exit section is an annulus.  This holds
    for the primary and for the secondary nozzle. *)
Theorem exit_annulus_is_proper (self : TurbofanGeom R) :
  let g := compute self in
  let pn := primary_nozzle_kp g in
  let sn := secondary_nozzle_kp g in
  (0 <= inwards self pri_nozzle_area_ratio ->
   inlet_hub_r pn ^ 2 <= inlet_tip_r pn ^ 2 -> proper_exit pn) /\
  (0 <= inwards self sec_nozzle_area_ratio ->
   inlet_hub_r sn ^ 2 <= inlet_tip_r sn ^ 2 -> proper_exit sn).
Proof.
  intros g pn sn.
  destruct (exit_tip_r_eq self) as [Ep Es]. fold g in Ep, Es.
  split; intros Hr Hk.
  - apply (proper_exit_of_radicand _ _ Hr Hk). unfold pn. rewrite Ep.
    exact_ops. f_equal. apply pri_radicand_eq.
  - apply (proper_exit_of_radicand _ _ Hr Hk). unfold sn. rewrite Es.
    exact_ops. f_equal.
Qed.

(** The area ratio decides whether the primary nozzle converges: with an
    inlet tip radius that is not negative and an inlet hub within it, an
    area ratio between 0 and 1 puts the exit tip at or inside the inlet tip
    radius, and an area ratio of at least 1 at or outside it. *)
Theorem primary_nozzle_converges (self : TurbofanGeom R) :
  let pn := primary_nozzle_kp (compute self) in
  let ratio := inwards self pri_nozzle_area_ratio in
  0 <= inlet_tip_r pn -> inlet_hub_r pn ^ 2 <= inlet_tip_r pn ^ 2 ->
  0 <= ratio ->
  (ratio <= 1 -> exit_tip_r pn <= inlet_tip_r pn) /\
  (1 <= ratio -> inlet_tip_r pn <= exit_tip_r pn).
Proof.
  intros pn ratio Ht Hh Hr. subst pn. unfold exit_tip_r.
  rewrite (primary_nozzle_exit_tip_eq self). exact_ops.
  now apply nozzle_radius_order.
Qed.

(** Why [compute] takes a [max]: the core cowl never ends outside the
    primary nozzle exit.  Write [min_dz] for the axial distance at which the
    cowl line through the TRF exit tip reaches the radius of the primary
    nozzle exit tip.  With a cowl that goes inwards (a negative tangent) the
    keypoint of [pri_nozzle_exit_kp] is at or inside the radius of the
    nozzle exit tip, with one that goes outwards at or outside it; and where
    the nozzle length is at most [min_dz], it is exactly at that radius,
    [min_dz] downstream of the TRF exit. *)
Theorem cowl_ends_at_nozzle_exit_radius (self : TurbofanGeom R) :
  let g := compute self in
  let t := tan (inwards self core_cowl_slope * (PI / 180)) in
  let L := primary_nozzle_length self in
  let r_pn := exit_tip_r (primary_nozzle_kp g) in
  let min_dz := (r_pn - exit_tip_r (trf_kp g)) / t in
  let pri := rz (pri_nozzle_exit_kp (outwards g)) in
  (t < 0 -> kp_r pri <= r_pn) /\
  (0 < t -> r_pn <= kp_r pri) /\
  (t <> 0 -> L <= min_dz ->
   kp_r pri = r_pn /\ kp_z pri = exit_tip_z (trf_kp g) + min_dz).
Proof.
  intros g t L r_pn min_dz pri.
  pose proof (pri_exit_rz_exact self) as Epri.
  cbv zeta in Epri. fold g t L in Epri. fold r_pn in Epri.
  fold min_dz in Epri. fold pri in Epri.
  rewrite Epri. unfold kp_r, kp_z, fst, snd.
  pose proof (Rmax_l min_dz L) as Hl.
  assert (E : t <> 0 -> min_dz * t = r_pn - exit_tip_r (trf_kp g))
    by (intros Ht; unfold min_dz; field; exact Ht).
  split; [|split].
  - intros Ht. specialize (E ltac:(lra)). nra.
  - intros Ht. specialize (E ltac:(lra)). nra.
  - intros Ht H. rewrite (Rmax_left _ _ H). specialize (E Ht).
    split; [lra | reflexivity].
Qed.

End ExactGeometry.

(** ** In exact arithmetic, at concrete inwards *)

Section ExactGeometryExamples.

#[local] Existing Instance ref_utils_R.

Local Open Scope R_scope.

Lemma geom0_nonneg_lengths : nonneg_lengths geom0.
Proof. unfold nonneg_lengths. model. repeat apply conj; arith. Qed.

Lemma geom0_nozzle_inlet :
  0 <= inlet_tip_r (primary_nozzle_kp (compute geom0)) /\
  inlet_hub_r (primary_nozzle_kp (compute geom0)) ^ 2
  <= inlet_tip_r (primary_nozzle_kp (compute geom0)) ^ 2 /\
  0 <= inwards geom0 pri_nozzle_area_ratio <= 1.
Proof. model. repeat apply conj; arith. Qed.

Lemma geom0_secondary_inlet :
  inlet_hub_r (secondary_nozzle_kp (compute geom0)) ^ 2
  <= inlet_tip_r (secondary_nozzle_kp (compute geom0)) ^ 2 /\
  0 <= inwards geom0 sec_nozzle_area_ratio.
Proof. model. repeat apply conj; arith. Qed.

Lemma geom0_cowl_tan : cowl_tan geom0 < 0.
Proof.
  model. literals. pose proof PI_RGT_0. apply tan_lt_0; nra.
Qed.

Lemma geometry_scales_with_fan_diameter_witness :
  scaled 2 (compute geom0)
    (compute (set fan_diameter (2 * inwards geom0 fan_diameter) geom0)).
Proof.
  destruct geom0_nozzle_inlet as (_ & Hh & Hr & _).
  destruct geom0_secondary_inlet as (Hs & Hrs).
  apply (geometry_scales_with_fan_diameter geom0 2).
  - lra.
  - rewrite (pri_radicand_eq geom0). now apply radicand_nonneg.
  - rewrite (sec_radicand_eq geom0). now apply radicand_nonneg.
  - pose proof geom0_cowl_tan. lra.
Defined.

Lemma stages_run_downstream_witness :
  exit_hub_z (trf_kp (compute geom0))
  <= exit_hub_z (primary_nozzle_kp (compute geom0)).
Proof.
  destruct (stages_run_downstream geom0 geom0_nonneg_lengths)
    as (_ & _ & _ & _ & _ & _ & _ & _ & H & _).
  exact H.
Defined.

Lemma exit_annulus_is_proper_witness :
  proper_exit (primary_nozzle_kp (compute geom0)) /\
  proper_exit (secondary_nozzle_kp (compute geom0)).
Proof.
  destruct geom0_nozzle_inlet as (_ & Hh & Hr & _).
  destruct geom0_secondary_inlet as (Hs & Hrs).
  destruct (exit_annulus_is_proper geom0) as (Hp & Hq).
  exact (conj (Hp Hr Hh) (Hq Hrs Hs)).
Defined.

Lemma primary_nozzle_converges_witness :
  exit_tip_r (primary_nozzle_kp (compute geom0))
  <= inlet_tip_r (primary_nozzle_kp (compute geom0)).
Proof.
  destruct geom0_nozzle_inlet as (Ht & Hh & Hr0 & Hr1).
  destruct (primary_nozzle_converges geom0 Ht Hh Hr0) as [H _].
  exact (H Hr1).
Defined.

Lemma cowl_ends_at_nozzle_exit_radius_witness :
  let g := compute geom0 in
  kp_r (rz (pri_nozzle_exit_kp (outwards g)))
  <= exit_tip_r (primary_nozzle_kp g).
Proof.
  cbv zeta. destruct (cowl_ends_at_nozzle_exit_radius geom0) as (H & _ & _).
  apply H. exact geom0_cowl_tan.
Defined.

End ExactGeometryExamples.

(** ** In binary64: a core cowl of slope zero *)

Section Binary64Geometry.

Local Open Scope float_scope.

Lemma div_negative_by_zero (d : float) :
  (d <? 0) = true -> d / 0 = neg_infinity.
Proof.
  intros H. apply Prim2SF_inj. rewrite div_spec.
  rewrite ltb_spec in H. change (Prim2SF 0) with (S754_zero false) in *.
  destruct (Prim2SF d) as [s | s | | s m e]; try destruct s;
    try discriminate H; reflexivity.
Qed.

Lemma div_positive_by_zero (d : float) :
  (0 <? d) = true -> d / 0 = infinity.
Proof.
  intros H. apply Prim2SF_inj. rewrite div_spec.
  rewrite ltb_spec in H. change (Prim2SF 0) with (S754_zero false) in *.
  destruct (Prim2SF d) as [s | s | | s m e]; try destruct s;
    try discriminate H; reflexivity.
Qed.

Lemma div_zero_by_zero (d : float) :
  (d =? 0) = true -> d / 0 = nan.
Proof.
  intros H. apply Prim2SF_inj. rewrite div_spec.
  rewrite eqb_spec in H. change (Prim2SF 0) with (S754_zero false) in *.
  destruct (Prim2SF d) as [s | s | | s m e]; try destruct s;
    try discriminate H; reflexivity.
Qed.

Lemma float_max_neg_infinity (x : float) :
  (x =? x) = true -> float_max neg_infinity x = x.
Proof.
  intros H. unfold float_max. rewrite ltb_spec. rewrite eqb_spec in H.
  change (Prim2SF neg_infinity) with (S754_infinity true).
  destruct (Prim2SF x) as [s | s | | s m e] eqn:E; try destruct s;
    try discriminate H; try reflexivity.
  apply Prim2SF_inj. now rewrite E.
Qed.

Lemma float_max_infinity (x : float) : float_max infinity x = infinity.
Proof.
  unfold float_max. rewrite ltb_spec.
  change (Prim2SF infinity) with (S754_infinity false).
  now destruct (Prim2SF x) as [s | s | | s m e]; try destruct s.
Qed.

Lemma mul_infinity_zero : infinity * 0 = nan.
Proof. reflexivity. Qed.

Context {L : Libm} {U : Utils float}.

(** With a core cowl of slope zero, whose tangent is +0.0, [compute]
    divides by zero.  Write [d] for the radius of the
    primary nozzle exit tip minus that of the TRF exit tip.  Where [d] is
    negative (a converging nozzle) the quotient is minus infinity, the [max]
    takes the nozzle length, and [pri_nozzle_exit_kp] is one nozzle length
    downstream of the TRF exit tip.  Where [d] is positive the quotient is
    plus infinity: the keypoint has radius NaN and z infinite.  Where [d] is
    zero the quotient is NaN and both coordinates are NaN. *)
Theorem flat_cowl_divides_by_zero (self : TurbofanGeom float) :
  let g := compute self in
  let d := exit_tip_r (primary_nozzle_kp g) - exit_tip_r (trf_kp g) in
  let len := primary_nozzle_length self in
  let pri := rz (pri_nozzle_exit_kp (outwards g)) in
  cowl_tan self = 0 ->
  ((d <? 0) = true -> (len =? len) = true ->
   pri = (exit_tip_r (trf_kp g) + len * 0, exit_tip_z (trf_kp g) + len)) /\
  ((0 <? d) = true ->
   pri = (nan, exit_tip_z (trf_kp g) + infinity)) /\
  ((d =? 0) = true -> pri = (nan, nan)).
Proof.
  intros g d len pri Ht. subst pri g.
  rewrite (pri_nozzle_exit_kp_eq self). cbv zeta. rewrite Ht.
  cbn [Binary64 fadd fsub fmul fdiv py_max].
  fold d. fold len.
  split; [|split].
  - intros Hd Hl. rewrite (div_negative_by_zero d Hd).
    rewrite (float_max_neg_infinity len Hl). reflexivity.
  - intros Hd. rewrite (div_positive_by_zero d Hd), float_max_infinity.
    rewrite mul_infinity_zero.
    unfold kp_add, r_, kp_r, kp_z, fst, snd. cbn [Binary64 fadd].
    rewrite add_nan_r. reflexivity.
  - intros Hd. rewrite (div_zero_by_zero d Hd), float_max_nan_l, mul_nan_l.
    unfold kp_add, r_, kp_r, kp_z, fst, snd. cbn [Binary64 fadd].
    rewrite !add_nan_r. reflexivity.
Qed.

End Binary64Geometry.

(** ** In binary64, at concrete inwards *)

Section Binary64GeometryExamples.

#[local] Existing Instance ref_libm.
#[local] Existing Instance ref_utils_float.

Local Open Scope float_scope.

Lemma flat_cowl_divides_by_zero_witness :
  (rz (pri_nozzle_exit_kp (outwards (compute flat_cowl)))
   = (exit_tip_r (trf_kp (compute flat_cowl))
      + primary_nozzle_length flat_cowl * 0,
      exit_tip_z (trf_kp (compute flat_cowl))
      + primary_nozzle_length flat_cowl)) /\
  (rz (pri_nozzle_exit_kp (outwards (compute flat_cowl_diverging)))
   = (nan, exit_tip_z (trf_kp (compute flat_cowl_diverging)) + infinity)) /\
  (rz (pri_nozzle_exit_kp (outwards (compute flat_cowl_no_engine)))
   = (nan, nan)).
Proof.
  split; [|split].
  - destruct (flat_cowl_divides_by_zero flat_cowl) as (H & _ & _);
      [vm_compute; reflexivity|].
    apply H; vm_compute; reflexivity.
  - destruct (flat_cowl_divides_by_zero flat_cowl_diverging) as (_ & H & _);
      [vm_compute; reflexivity|].
    apply H; vm_compute; reflexivity.
  - destruct (flat_cowl_divides_by_zero flat_cowl_no_engine) as (_ & _ & H);
      [vm_compute; reflexivity|].
    apply H; vm_compute; reflexivity.
Defined.

(** The stations are planes in exact arithmetic only.  In binary64 the
    shaft exit, at the fan module exit plus the sum of the core and TCF
    lengths, and the TCF exit, at the core exit plus the TCF length, can
    round differently: at the values [Turbofan.setup] leaves in [geom], the
    turbine has its inlet hub and its inlet tip at two abscissas. *)
Lemma turbine_inlet_rounds_apart :
  inlet_hub_z (turbine_kp (compute tf_geom))
  <> inlet_tip_z (turbine_kp (compute tf_geom)).
Proof. vm_compute. intros H. discriminate (f_equal Prim2SF H). Qed.

End Binary64GeometryExamples.

(** * Properties of the turbofan assembly *)

Section AssemblyTheorems.

Import String List ListNotations.

Local Open Scope string_scope.
Local Open Scope list_scope.

Lemma all_pairs_negb {A : Type} (f : A -> A -> bool) (l : list A) :
  all_pairs (fun x y => negb (f x y)) l = true ->
  ForallOrdPairs (fun a b => f a b = false) l.
Proof.
  induction l as [|a l IH]; simpl; intros H; [constructor|].
  apply andb_true_iff in H as [Ha Hl]. constructor.
  - apply Forall_forall. intros b Hb.
    apply negb_true_iff. revert b Hb. now apply forallb_forall.
  - now apply IH.
Qed.

Lemma forallb_Forall_true {A : Type} (f : A -> bool) (l : list A) :
  forallb f l = true -> Forall (fun x => f x = true) l.
Proof. intros H. apply Forall_forall. now apply forallb_forall. Qed.

Lemma nodup_id {A : Type} (dec : forall x y : A, {x = y} + {x <> y})
    (l : list A) :
  nodup dec l = l -> NoDup l.
Proof. intros H. rewrite <- H. apply NoDup_nodup. Qed.

Lemma mem_In (s : string) (l : list string) : mem s l = true -> In s l.
Proof.
  unfold mem. intros H. apply existsb_exists in H as (x & Hx & E).
  apply String.eqb_eq in E. now subst.
Qed.

(** No two [connect] calls of [Turbofan.setup], and no two of
    [TurbofanWithAtm.setup], name the same variable of their second
    argument: no port is given whole as second argument twice, and no
    variable name is mapped twice onto the same child or port. *)
Theorem connections_have_one_writer :
  ForallOrdPairs (fun a b => overlap a b = false)
    (flat_map written (connections Turbofan_assembly)) /\
  ForallOrdPairs (fun a b => overlap a b = false)
    (flat_map written (connections TurbofanWithAtm_assembly)).
Proof. split; apply all_pairs_negb; vm_compute; reflexivity. Qed.

(** The design method [scaling] of [Turbofan.setup] is a square problem:
    it declares as many unknowns as targets (18 each), no unknown and no
    target twice, no variable as both, and every unknown that is given both
    bounds has its lower bound strictly below its upper bound. *)
Theorem scaling_is_square :
  length (design_unknowns scaling) = 18%nat /\
  length (design_targets scaling) = 18%nat /\
  NoDup (map unknown_path (design_unknowns scaling)) /\
  NoDup (design_targets scaling) /\
  Forall (fun u => well_bounded u = true) (design_unknowns scaling) /\
  Forall (fun u => ~ In (unknown_path u) (design_targets scaling))
         (design_unknowns scaling).
Proof.
  split; [reflexivity|]. split; [reflexivity|]. split; [|split; [|split]].
  - apply (nodup_id (list_eq_dec string_dec)). vm_compute. reflexivity.
  - apply (nodup_id (list_eq_dec string_dec)). vm_compute. reflexivity.
  - apply forallb_Forall_true. vm_compute. reflexivity.
  - apply Forall_forall. intros u Hu Hin.
    assert (H : forallb (fun u => negb (existsb (path_eqb (unknown_path u))
                                          (design_targets scaling)))
                        (design_unknowns scaling) = true)
      by (vm_compute; reflexivity).
    rewrite forallb_forall in H. specialize (H u Hu).
    apply negb_true_iff in H.
    assert (E : existsb (path_eqb (unknown_path u)) (design_targets scaling)
                = true).
    { apply existsb_exists. exists (unknown_path u). split; [exact Hin|].
      unfold path_eqb. now destruct (list_eq_dec string_dec _ _). }
    congruence.
Qed.

(** [Turbofan.setup] against the interface [TurbofanGeom.setup] declares.
    Of the names it uses of its child [geom] (pulled up, given as a port or
    as a name of the first argument of a [connect], or declared as a design
    unknown), exactly one is not declared by [TurbofanGeom.setup]:
    [fan_duct_core_cowl_slope], in the connection to [fan_duct].  Of the
    ports and outwards [TurbofanGeom] computes, five are used by none of
    them: [inlet_kp], [fanmodule_kp], [shaft_kp], [ogv_exit_hub_kp] and
    [turbine_exit_tip_kp].  Every design unknown on [geom] is one of its
    inwards. *)
Theorem geom_names_used_by_Turbofan :
  filter (fun n => negb (mem n geom_declared))
         (names_used_of Turbofan_assembly "geom")
  = ["fan_duct_core_cowl_slope"] /\
  filter (fun n => negb (mem n (names_used_of Turbofan_assembly "geom")))
         (geom_ports ++ geom_outwards)
  = ["inlet_kp"; "fanmodule_kp"; "shaft_kp"; "ogv_exit_hub_kp";
     "turbine_exit_tip_kp"] /\
  Forall (fun u => match unknown_path u with
                   | ["geom"; n] => In n geom_inwards
                   | _ => True
                   end) (design_unknowns scaling).
Proof.
  split; [vm_compute; reflexivity|]. split; [vm_compute; reflexivity|].
  repeat (apply Forall_cons;
          [first [exact I | apply mem_In; vm_compute; reflexivity]|]).
  apply Forall_nil.
Qed.

End AssemblyTheorems.
